(** * claude_gui.py: command builder, argument quoting and launcher

    A shallow embedding of the core of [claude_gui.py]: [_build_command]
    (configuration to argument vector), [_quote_arg] (display quoting) and
    [_launch_claude] / [_launch_claude_unix] (the launcher), with the
    properties established about them.

    Python [str] values are modelled as [string] (sequences of 8-bit
    characters; a non-ASCII character is its UTF-8 bytes).  *)

From Stdlib Require Import String Ascii List Bool Arith Lia.
Import ListNotations.
Local Open Scope string_scope.
Local Open Scope list_scope.

(** ** Python string helpers *)

Module PyStr.

(** The characters that need a numeric notation. *)
Definition dquote : ascii := "034"%char.
Definition squote : ascii := "039"%char.
Definition backslash : ascii := "092"%char.
Definition newline : ascii := "010"%char.
Definition tab : ascii := "009"%char.

Definition chr (c : ascii) : string := String c EmptyString.

(** [bool(s)] for a [str]: true iff the string is not empty. *)
Definition truthy (s : string) : bool :=
  match s with
  | EmptyString => false
  | String _ _ => true
  end.

(** [a or b] on strings. *)
Definition or_else (a b : string) : string := if truthy a then a else b.

(** [str.isspace] on one character, ASCII range: TAB, LF, VT, FF, CR,
    FS, GS, RS, US and SPACE.  (Python also counts some non-ASCII code
    points as whitespace; they are multi-byte here and left alone.) *)
Definition isspace (c : ascii) : bool :=
  let n := nat_of_ascii c in
  (Nat.leb 9 n && Nat.leb n 13) || (Nat.leb 28 n && Nat.leb n 32).

(** [s.lstrip()]. *)
Fixpoint lstrip (s : string) : string :=
  match s with
  | EmptyString => EmptyString
  | String c r => if isspace c then lstrip r else s
  end.

(** [s.rstrip()]: a character is dropped iff it is whitespace and all
    that follows it is dropped too. *)
Fixpoint rstrip (s : string) : string :=
  match s with
  | EmptyString => EmptyString
  | String c r =>
      match rstrip r with
      | EmptyString => if isspace c then EmptyString else chr c
      | r' => String c r'
      end
  end.

(** [s.strip()]. *)
Definition strip (s : string) : string := rstrip (lstrip s).

(** [c in s] for a one-character [c]. *)
Fixpoint contains (c : ascii) (s : string) : bool :=
  match s with
  | EmptyString => false
  | String d r => Ascii.eqb c d || contains c r
  end.

(** [s.replace(c, r)] for a one-character pattern [c]. *)
Fixpoint replace (c : ascii) (r : string) (s : string) : string :=
  match s with
  | EmptyString => EmptyString
  | String d t => String.append (if Ascii.eqb c d then r else chr d) (replace c r t)
  end.

(** [sep.join(parts)]. *)
Fixpoint join (sep : string) (parts : list string) : string :=
  match parts with
  | [] => EmptyString
  | [p] => p
  | p :: ps => String.append p (String.append sep (join sep ps))
  end.

(** [s.lower()], ASCII letters.  (The only use compares with ASCII
    words none of whose letters is the lower case of a non-ASCII one.) *)
Definition lower_char (c : ascii) : ascii :=
  let n := nat_of_ascii c in
  if Nat.leb 65 n && Nat.leb n 90 then ascii_of_nat (n + 32) else c.

Fixpoint lower (s : string) : string :=
  match s with
  | EmptyString => EmptyString
  | String c r => String (lower_char c) (lower r)
  end.

(** [sub in s] for strings. *)
Fixpoint is_substring (sub s : string) : bool :=
  prefix sub s
  || match s with
     | EmptyString => false
     | String _ r => is_substring sub r
     end.

(** [s.startswith(c)] for a one-character prefix. *)
Definition startswith (c : ascii) (s : string) : bool :=
  match s with
  | EmptyString => false
  | String d _ => Ascii.eqb c d
  end.

End PyStr.
Import PyStr.

(** ** The configuration: the Tk variables and widgets read by the builder

    One field per [tk.StringVar], [tk.BooleanVar], [Text] widget content
    and Python list of [_init_variables], under the source's names.  A
    [Text] field holds what [widget.get("1.0", tk.END)] returns. *)

Record Config := mkConfig {
  claude_path_var : string;
  working_dir_var : string;
  prompt_var : string;
  model_var : string;
  fallback_model_var : string;
  continue_var : bool;
  resume_var : string;
  fork_session_var : bool;
  session_id_var : string;
  agent_var : string;
  agents_json_text : string;
  tools_text : string;
  allowed_tools_var : string;
  disallowed_tools_var : string;
  disable_slash_commands_var : bool;
  system_prompt_text : string;
  append_prompt_text : string;
  print_mode_var : bool;
  input_format_var : string;
  output_format_var : string;
  json_schema_text : string;
  include_partial_var : bool;
  replay_user_var : bool;
  mcp_config_var : string;
  strict_mcp_var : bool;
  plugin_dirs : list string;
  permission_mode_var : string;
  allow_skip_perms_var : bool;
  skip_perms_var : bool;
  add_dirs : list string;
  file_specs_var : string;
  max_budget_var : string;
  debug_var : string;
  debug_file_var : string;
  verbose_var : bool;
  chrome_var : string;
  ide_var : bool;
  settings_var : string;
  setting_user_var : bool;
  setting_project_var : bool;
  setting_local_var : bool;
  betas_var : string;
  no_session_persistence_var : bool
}.

(** ** [_build_command] *)

Module Builder.

(** [if cond: cmd.extend(xs)] (also [cmd.append(x)], with [xs = [x]]). *)
Definition extend_if (cond : bool) (xs : list string) (cmd : list string)
  : list string :=
  if cond then cmd ++ xs else cmd.

(** [for d in dirs: cmd.extend([flag, d])]. *)
Definition extend_each (flag : string) (dirs : list string)
  (cmd : list string) : list string :=
  fold_left (fun acc d => acc ++ [flag; d]) dirs cmd.

(** The [sources] list of the setting-sources block. *)
Definition setting_sources (c : Config) : list string :=
  let sources := [] in
  let sources := if setting_user_var c then sources ++ ["user"] else sources in
  let sources := if setting_project_var c then sources ++ ["project"] else sources in
  let sources := if setting_local_var c then sources ++ ["local"] else sources in
  sources.

(** The chrome block: [if ... == "enabled" ... elif ... == "disabled"]. *)
Definition chrome_step (v : string) (cmd : list string) : list string :=
  if v =? "enabled" then cmd ++ ["--chrome"]
  else if v =? "disabled" then cmd ++ ["--no-chrome"]
  else cmd.

Definition _build_command (c : Config) : list string :=
  let claude_path := or_else (claude_path_var c) "claude" in
  let cmd := [claude_path] in
  let cmd := extend_if (truthy (model_var c)) ["--model"; model_var c] cmd in
  let cmd := extend_if (truthy (fallback_model_var c))
               ["--fallback-model"; fallback_model_var c] cmd in
  let cmd := extend_if (continue_var c) ["-c"] cmd in
  let cmd := extend_if (truthy (resume_var c)) ["-r"; resume_var c] cmd in
  let cmd := extend_if (fork_session_var c) ["--fork-session"] cmd in
  let cmd := extend_if (truthy (session_id_var c))
               ["--session-id"; session_id_var c] cmd in
  let cmd := extend_if (truthy (agent_var c)) ["--agent"; agent_var c] cmd in
  let agents_json := strip (agents_json_text c) in
  let cmd := extend_if (truthy agents_json) ["--agents"; agents_json] cmd in
  let tools := strip (tools_text c) in
  let cmd := extend_if (truthy tools) ["--tools"; tools] cmd in
  let cmd := extend_if (truthy (allowed_tools_var c))
               ["--allowedTools"; allowed_tools_var c] cmd in
  let cmd := extend_if (truthy (disallowed_tools_var c))
               ["--disallowedTools"; disallowed_tools_var c] cmd in
  let cmd := extend_if (disable_slash_commands_var c)
               ["--disable-slash-commands"] cmd in
  let system_prompt := strip (system_prompt_text c) in
  let cmd := extend_if (truthy system_prompt)
               ["--system-prompt"; system_prompt] cmd in
  let append_prompt := strip (append_prompt_text c) in
  let cmd := extend_if (truthy append_prompt)
               ["--append-system-prompt"; append_prompt] cmd in
  let cmd := extend_if (print_mode_var c) ["-p"] cmd in
  let cmd := extend_if (negb (input_format_var c =? "text"))
               ["--input-format"; input_format_var c] cmd in
  let cmd := extend_if (negb (output_format_var c =? "text"))
               ["--output-format"; output_format_var c] cmd in
  let json_schema := strip (json_schema_text c) in
  let cmd := extend_if (truthy json_schema) ["--json-schema"; json_schema] cmd in
  let cmd := extend_if (include_partial_var c)
               ["--include-partial-messages"] cmd in
  let cmd := extend_if (replay_user_var c) ["--replay-user-messages"] cmd in
  let cmd := extend_if (truthy (mcp_config_var c))
               ["--mcp-config"; mcp_config_var c] cmd in
  let cmd := extend_if (strict_mcp_var c) ["--strict-mcp-config"] cmd in
  let cmd := extend_each "--plugin-dir" (plugin_dirs c) cmd in
  let cmd := extend_if (negb (permission_mode_var c =? "default"))
               ["--permission-mode"; permission_mode_var c] cmd in
  let cmd := extend_if (allow_skip_perms_var c)
               ["--allow-dangerously-skip-permissions"] cmd in
  let cmd := extend_if (skip_perms_var c)
               ["--dangerously-skip-permissions"] cmd in
  let cmd := extend_each "--add-dir" (add_dirs c) cmd in
  let cmd := extend_if (truthy (file_specs_var c))
               ["--file"; file_specs_var c] cmd in
  let cmd := extend_if (truthy (max_budget_var c))
               ["--max-budget-usd"; max_budget_var c] cmd in
  let cmd := extend_if (truthy (debug_var c)) ["--debug"; debug_var c] cmd in
  let cmd := extend_if (truthy (debug_file_var c))
               ["--debug-file"; debug_file_var c] cmd in
  let cmd := extend_if (verbose_var c) ["--verbose"] cmd in
  let cmd := chrome_step (chrome_var c) cmd in
  let cmd := extend_if (ide_var c) ["--ide"] cmd in
  let cmd := extend_if (truthy (settings_var c))
               ["--settings"; settings_var c] cmd in
  let sources := setting_sources c in
  let cmd := extend_if (negb (Nat.eqb (length sources) 0))
               ["--setting-sources"; join "," sources] cmd in
  let cmd := extend_if (truthy (betas_var c)) ["--betas"; betas_var c] cmd in
  let cmd := extend_if (no_session_persistence_var c)
               ["--no-session-persistence"] cmd in
  let cmd := extend_if (truthy (prompt_var c)) [prompt_var c] cmd in
  cmd.

End Builder.
Import Builder.

(** ** [_quote_arg] and the command preview *)

Module Quoting.

(** [[a-zA-Z0-9_]]: [\w] under [re.ASCII]. *)
Definition is_word_char (c : ascii) : bool :=
  let n := nat_of_ascii c in
  (Nat.leb 48 n && Nat.leb n 57) || (Nat.leb 65 n && Nat.leb n 90)
  || (Nat.leb 97 n && Nat.leb n 122) || Nat.eqb n 95.

(** The complement of [_find_unsafe]'s class [[^\w@%+=:,./-]]. *)
Definition is_safe_char (c : ascii) : bool :=
  is_word_char c || contains c "@%+=:,./-".

Fixpoint all_safe (s : string) : bool :=
  match s with
  | EmptyString => true
  | String c r => is_safe_char c && all_safe r
  end.

(** The five characters ['"'"'] that [shlex.quote] puts for a single
    quote: close the quoted run, a double-quoted single quote, reopen. *)
Definition squote_escape : string :=
  String squote (String dquote (String squote (String dquote (chr squote)))).

(** [shlex.quote] of the Python standard library, which [_quote_arg]
    calls on POSIX.  It is not part of this repository; this follows
    its CPython definition: the empty string gives two single quotes, a
    string of safe characters is returned unchanged, any other string is
    wrapped in single quotes with each single quote replaced by
    [squote_escape]. *)
Definition shlex_quote (s : string) : string :=
  if negb (truthy s) then String squote (chr squote)
  else if all_safe s then s
  else (chr squote ++ replace squote squote_escape s ++ chr squote)%string.

(** [any(c in arg for c in '&|<>^')]. *)
Definition has_cmd_metachar (arg : string) : bool :=
  existsb (fun c => contains c arg) (list_ascii_of_string "&|<>^").

(** [_quote_arg], with [sys.platform] as a parameter. *)
Definition _quote_arg (platform : string) (arg : string) : string :=
  if negb (truthy arg) then
    if platform =? "win32" then String dquote (chr dquote)
    else String squote (chr squote)
  else if platform =? "win32" then
    if contains " " arg || contains dquote arg || contains tab arg
       || contains newline arg || has_cmd_metachar arg
    then
      let escaped := replace dquote (String backslash (chr dquote)) arg in
      (chr dquote ++ escaped ++ chr dquote)%string
    else arg
  else shlex_quote arg.

(** [_get_command_string]: the quoted tokens joined by single spaces. *)
Definition _get_command_string (platform : string) (c : Config) : string :=
  join " " (map (_quote_arg platform) (_build_command c)).

End Quoting.
Import Quoting.

(** ** Reference semantics: how each platform reads a command line back

    The round trip of a quoted token is stated against these two readers:
    the word splitting of the POSIX shell and the argument rules of
    Windows programs.  They are not code of the repository. *)

Module Words.

(** The word being collected, if one has been started. *)
Definition push (c : ascii) (cur : option string) : option string :=
  Some (match cur with
        | None => chr c
        | Some w => (w ++ chr c)%string
        end).

Definition start (cur : option string) : option string :=
  Some (match cur with
        | None => EmptyString
        | Some w => w
        end).

Definition flush (cur : option string) (rest : list string) : list string :=
  match cur with
  | None => rest
  | Some w => w :: rest
  end.

Fixpoint push_n (n : nat) (c : ascii) (cur : option string) : option string :=
  match n with
  | O => cur
  | S k => push_n k c (push c cur)
  end.

End Words.

Module PosixShell.
Import Words.

Inductive mode := Plain | Single | Double | PlainEsc | DoubleEsc.

Definition is_blank (c : ascii) : bool :=
  Ascii.eqb c " " || Ascii.eqb c tab.

(** Characters that, unquoted, are operators or start an expansion, a
    pattern, a comment or a reserved word, and the newline, which ends
    the command: a command line with one of them outside quotes is not
    the plain list of words of one command. *)
Definition is_active (c : ascii) : bool :=
  contains c "|&;<>()$`*?[#~{}!" || Ascii.eqb c newline.

(** Word splitting and quote removal of the POSIX shell command
    language: blanks separate words; a backslash outside quotes keeps the
    next character (and removes an escaped newline); single quotes keep
    everything up to the next single quote; inside double quotes a
    backslash escapes only [$], the backquote, the double quote, the
    backslash and the newline.  [None] when a quote is left open, when
    the line ends in a backslash, or when an active character occurs
    outside single quotes and unescaped. *)
Fixpoint words (m : mode) (cur : option string) (s : string)
  : option (list string) :=
  match s with
  | EmptyString =>
      match m with
      | Plain => Some (flush cur [])
      | _ => None
      end
  | String c r =>
      match m with
      | Plain =>
          if is_blank c then option_map (flush cur) (words Plain None r)
          else if Ascii.eqb c squote then words Single (start cur) r
          else if Ascii.eqb c dquote then words Double (start cur) r
          else if Ascii.eqb c backslash then words PlainEsc cur r
          else if is_active c then None
          else words Plain (push c cur) r
      | Single =>
          if Ascii.eqb c squote then words Plain cur r
          else words Single (push c cur) r
      | Double =>
          if Ascii.eqb c dquote then words Plain cur r
          else if Ascii.eqb c backslash then words DoubleEsc cur r
          else if Ascii.eqb c "$" || Ascii.eqb c "`" then None
          else words Double (push c cur) r
      | PlainEsc =>
          if Ascii.eqb c newline then words Plain cur r
          else words Plain (push c cur) r
      | DoubleEsc =>
          if Ascii.eqb c newline then words Double cur r
          else if Ascii.eqb c "$" || Ascii.eqb c "`" || Ascii.eqb c dquote
                  || Ascii.eqb c backslash
          then words Double (push c cur) r
          else words Double (push c (push backslash cur)) r
      end
  end.

Definition parse (line : string) : option (list string) :=
  words Plain None line.

End PosixShell.

Module WinArgv.
Import Words.

(** The argument rules of the Microsoft C runtime (the ones a Windows
    program's [argv] is made with): space and tab separate arguments
    outside quotes; a double quote toggles quoting; [2n] backslashes
    before a double quote give [n] backslashes and the quote acts as a
    delimiter; [2n+1] backslashes before a double quote give [n]
    backslashes and a literal double quote; backslashes not followed by
    a double quote are literal; inside quotes a doubled double quote is
    one literal double quote.  [n] counts the backslashes just read. *)
Fixpoint args (inq : bool) (n : nat) (cur : option string) (s : string)
  : list string :=
  match s with
  | EmptyString => flush (push_n n backslash cur) []
  | String c r =>
      if Ascii.eqb c backslash then args inq (S n) cur r
      else if Ascii.eqb c dquote then
        let cur' := push_n (Nat.div2 n) backslash (start cur) in
        if Nat.even n then
          match r with
          | String d r' =>
              if inq && Ascii.eqb d dquote
              then args inq 0 (push dquote cur') r'
              else args (negb inq) 0 cur' r
          | EmptyString => args (negb inq) 0 cur' r
          end
        else args inq 0 (push dquote cur') r
      else
        let cur' := push_n n backslash cur in
        if (Ascii.eqb c " " || Ascii.eqb c tab) && negb inq
        then flush cur' (args false 0 None r)
        else args inq 0 (push c cur') r
  end.

Definition parse (line : string) : list string := args false 0 None line.

End WinArgv.

(** ** The launcher: [_launch_claude] and [_launch_claude_unix]

    The launcher talks to the operating system and to the user.  Its
    effects are modelled by a state ([World]) threaded through a state and
    exception monad; the answers of the operating system are read from a
    [Host]. *)

Module Launcher.

(** *** Exceptions *)

(** The classes the code tells apart.  [FileNotFoundError] is a subclass
    of [OSError]; [OSError] here stands for every other [OSError], and
    [Exception] for an exception that is not an [OSError]. *)
Inductive exn_class := FileNotFoundError | OSError | Exception.

Record exn := mkExn { cls : exn_class; str : string }.

Definition isinstance_OSError (e : exn) : bool :=
  match cls e with
  | FileNotFoundError | OSError => true
  | Exception => false
  end.

Definition isinstance_FileNotFoundError (e : exn) : bool :=
  match cls e with
  | FileNotFoundError => true
  | _ => false
  end.

(** [os.close] on a descriptor that is not open. *)
Definition EBADF : exn := mkExn OSError "[Errno 9] Bad file descriptor".

Inductive result (A : Type) :=
| Ok (a : A)
| Raise (e : exn).
Arguments Ok {A} a.
Arguments Raise {A} e.

(** *** What the launcher can observe and change *)

(** A started process: [subprocess.Popen(argv, cwd=..., ...)]. *)
Record Proc := mkProc {
  p_argv : list string;
  p_cwd : option string;
  p_start_new_session : bool;
  p_create_new_console : bool
}.

Inductive Dialog :=
| showerror (title message : string)
| showinfo (title message : string).

(** Every call made to the operating system, in order, whether it
    succeeded or not. *)
Inductive Call :=
| call_mkstemp
| call_write (fd : nat) (data : string)
| call_close (fd : nat)
| call_chmod (path : string) (mode : nat)
| call_remove (path : string)
| call_Popen (p : Proc).

Record World := mkWorld {
  files : list (string * string);  (* path and content of the files staged *)
  open_fds : list (nat * string);  (* open descriptors and their files *)
  procs : list Proc;               (* processes started, oldest first *)
  dialogs : list Dialog;           (* message boxes shown, oldest first *)
  calls : list Call                (* system calls made, oldest first *)
}.

Definition empty_world : World := mkWorld [] [] [] [] [].

(** The host: [sys.platform] and how the system answers.  An error field
    set to [Some e] makes the corresponding call raise [e]. *)
Record Host := mkHost {
  platform : string;
  getcwd : string;                         (* os.getcwd() *)
  home : string;                           (* os.path.expanduser("~") *)
  drive_root : string;     (* os.path.splitdrive(cwd)[0] + os.sep *)
  isdir : string -> bool;                  (* os.path.isdir *)
  mkstemp_result : result (nat * string);  (* tempfile.mkstemp(...) *)
  write_error : option exn;                (* os.write *)
  close_error : option exn;                (* os.close of an open fd *)
  chmod_error : option exn;                (* os.chmod *)
  remove_error : option exn;               (* os.remove of a present file *)
  which : string -> option string;         (* shutil.which *)
  path_exists : string -> bool;            (* os.path.exists *)
  popen_error : list string -> option exn  (* subprocess.Popen(argv, ...) *)
}.

(** *** The monad *)

Definition M (A : Type) : Type := World -> result A * World.

Definition ret {A} (a : A) : M A := fun w => (Ok a, w).
Definition raise {A} (e : exn) : M A := fun w => (Raise e, w).

Definition bind {A B} (m : M A) (k : A -> M B) : M B :=
  fun w =>
    match m w with
    | (Ok a, w') => k a w'
    | (Raise e, w') => (Raise e, w')
    end.

Notation "x <- m ;; k" := (bind m (fun x => k))
  (at level 61, m at next level, right associativity).
Notation "m ;; k" := (bind m (fun _ => k))
  (at level 61, right associativity).

(** An [except C as e: handler] clause: the class test and the handler. *)
Definition clause (A : Type) : Type := ((exn -> bool) * (exn -> M A))%type.

(** The first clause whose class matches handles the exception; with
    none, it propagates. *)
Fixpoint dispatch {A} (clauses : list (clause A)) (e : exn) : M A :=
  match clauses with
  | [] => raise e
  | (catches, handler) :: rest =>
      if catches e then handler e else dispatch rest e
  end.

(** [try: body  except ...: ...  except ...: ...]. *)
Definition try_except {A} (body : M A) (clauses : list (clause A)) : M A :=
  fun w =>
    match body w with
    | (Ok a, w') => (Ok a, w')
    | (Raise e, w') => dispatch clauses e w'
    end.

(** [except OSError: pass]. *)
Definition pass_OSError : clause unit := (isinstance_OSError, fun _ => ret tt).

(** [try: body  finally: fin]: [fin] runs in both cases; an exception of
    [fin] replaces the outcome of [body]. *)
Definition try_finally {A} (body : M A) (fin : M unit) : M A :=
  fun w =>
    let (r, w') := body w in
    match fin w' with
    | (Ok _, w'') => (r, w'')
    | (Raise e, w'') => (Raise e, w'')
    end.

(** *** System calls *)

Definition log (c : Call) : M unit :=
  fun w => (Ok tt, mkWorld (files w) (open_fds w) (procs w) (dialogs w)
                           (calls w ++ [c])).

Definition fail_if {A} (err : option exn) (k : M A) : M A :=
  match err with
  | Some e => raise e
  | None => k
  end.

Definition path_present (p : string) (w : World) : bool :=
  existsb (fun f => fst f =? p) (files w).

Definition without_path (p : string) (fs : list (string * string))
  : list (string * string) :=
  filter (fun f => negb (fst f =? p)) fs.

Definition without_fd (fd : nat) (fds : list (nat * string))
  : list (nat * string) :=
  filter (fun d => negb (Nat.eqb (fst d) fd)) fds.

(** The file an open descriptor refers to. *)
Definition fd_path (fd : nat) (w : World) : option string :=
  option_map snd (find (fun d => Nat.eqb (fst d) fd) (open_fds w)).

(** [tempfile.mkstemp]: creates an empty file and returns an open
    descriptor and the path. *)
Definition mkstemp (h : Host) : M (nat * string) :=
  log call_mkstemp ;;
  match mkstemp_result h with
  | Raise e => raise e
  | Ok (fd, path) =>
      fun w => (Ok (fd, path),
                mkWorld (files w ++ [(path, EmptyString)])
                        (open_fds w ++ [(fd, path)]) (procs w) (dialogs w)
                        (calls w))
  end.

(** [os.write(fd, data)]: [EBADF] when [fd] is not open; otherwise the
    data becomes the content of the file [fd] is open on. *)
Definition os_write (h : Host) (fd : nat) (data : string) : M unit :=
  log (call_write fd data) ;;
  fun w =>
    match fd_path fd w with
    | None => (Raise EBADF, w)
    | Some path =>
        fail_if (write_error h)
          (fun w => (Ok tt,
                     mkWorld (without_path path (files w) ++ [(path, data)])
                             (open_fds w) (procs w) (dialogs w) (calls w))) w
    end.

(** [os.close(fd)]: [EBADF] when [fd] is not open; otherwise the
    descriptor is released, also when the call reports an error. *)
Definition os_close (h : Host) (fd : nat) : M unit :=
  log (call_close fd) ;;
  fun w =>
    match fd_path fd w with
    | None => (Raise EBADF, w)
    | Some _ =>
      let w' := mkWorld (files w) (without_fd fd (open_fds w)) (procs w)
                        (dialogs w) (calls w) in
      fail_if (close_error h) (ret tt) w'
    end.

Definition os_chmod (h : Host) (path : string) (mode : nat) : M unit :=
  log (call_chmod path mode) ;;
  fail_if (chmod_error h) (ret tt).

(** [os.remove(path)]: [FileNotFoundError] when there is no such file. *)
Definition os_remove (h : Host) (path : string) : M unit :=
  log (call_remove path) ;;
  fun w =>
    if negb (path_present path w)
    then (Raise (mkExn FileNotFoundError "[Errno 2] No such file or directory"), w)
    else
      fail_if (remove_error h)
        (fun w => (Ok tt,
                   mkWorld (without_path path (files w)) (open_fds w)
                           (procs w) (dialogs w) (calls w))) w.

Definition Popen (h : Host) (p : Proc) : M unit :=
  log (call_Popen p) ;;
  fail_if (popen_error h (p_argv p))
    (fun w => (Ok tt,
               mkWorld (files w) (open_fds w) (procs w ++ [p]) (dialogs w)
                       (calls w))).

Definition messagebox (d : Dialog) : M unit :=
  fun w => (Ok tt, mkWorld (files w) (open_fds w) (procs w)
                           (dialogs w ++ [d]) (calls w)).

(** [stat.S_IRWXU], octal 700. *)
Definition S_IRWXU : nat := 448.

(** *** [_launch_claude_unix] *)

(** The text written to the temporary script. *)
Definition script_content (cmd : list string) (working_dir script_path : string)
  : string :=
  ("#!/bin/sh" ++ chr newline
   ++ "cd " ++ shlex_quote working_dir ++ " && "
   ++ join " " (map shlex_quote cmd) ++ chr newline
   ++ "rm -f " ++ shlex_quote script_path ++ chr newline)%string.

(** The [try] block that stages the script, with its [except OSError]
    handler: close the descriptor, try to remove the file, re-raise. *)
Definition stage_script (h : Host) (fd : nat) (script_path : string)
  (cmd : list string) (working_dir : string) : M unit :=
  try_except
    (os_write h fd (script_content cmd working_dir script_path) ;;
     os_close h fd ;;
     os_chmod h script_path S_IRWXU)
    [(isinstance_OSError,
      fun e =>
        os_close h fd ;;
        try_except (os_remove h script_path) [pass_OSError] ;;
        raise e)].

(** The [launchers] list. *)
Definition launchers (h : Host) (script_path : string) : list (list string) :=
  let sh_script := ("sh " ++ shlex_quote script_path)%string in
  (if platform h =? "darwin" then
     let script_escaped :=
       replace dquote (String backslash (chr dquote))
         (replace backslash (String backslash (chr backslash)) script_path) in
     [["osascript"; "-e";
       ("tell application " ++ chr dquote ++ "Terminal" ++ chr dquote
        ++ " to do script " ++ chr dquote ++ "sh " ++ script_escaped
        ++ chr dquote)%string]]
   else [])
  ++ [["x-terminal-emulator"; "-e"; (sh_script ++ "; exec sh")%string];
      ["gnome-terminal"; "--"; "sh"; "-c"; (sh_script ++ "; exec bash")%string];
      ["xterm"; "-e"; (sh_script ++ "; exec sh")%string];
      ["konsole"; "-e"; "sh"; shlex_quote script_path];
      ["xfce4-terminal"; "-e"; (sh_script ++ "; exec sh")%string]].

(** [os.path.isabs] of [posixpath]. *)
Definition isabs (p : string) : bool := startswith "/" p.

(** The test of the loop body:
    [exe and (os.path.exists(exe) if os.path.isabs(exe) else True)]
    with [exe = shutil.which(argv[0])], or [argv[0]] itself when it
    starts with a slash. *)
Definition resolves (h : Host) (argv : list string) : bool :=
  let argv0 := hd EmptyString argv in
  let exe := if negb (startswith "/" argv0) then which h argv0
             else Some argv0 in
  match exe with
  | None => false
  | Some e => truthy e && (if isabs e then path_exists h e else true)
  end.

(** The [for argv in launchers] loop; [true] stands for its [return]
    after a terminal was started, [false] for falling out of the loop. *)
Fixpoint try_launchers (h : Host) (ls : list (list string)) : M bool :=
  match ls with
  | [] => ret false
  | argv :: rest =>
      started <- try_except
                   (if resolves h argv
                    then Popen h (mkProc argv None true false) ;; ret true
                    else ret false)
                   [(isinstance_OSError, fun _ => ret false)] ;;
      if started : bool then ret true else try_launchers h rest
  end.

Definition background_notice : Dialog :=
  showinfo "Launched in background"
    ("Claude CLI was started but no terminal was found to show output."
     ++ chr newline ++ chr newline
     ++ "Run it from a terminal, or install a terminal emulator (e.g. gnome-terminal, xterm).")%string.

Definition _launch_claude_unix (h : Host) (cmd : list string)
  (working_dir : string) : M unit :=
  tmp <- mkstemp h ;;
  let fd := fst tmp in
  let script_path := snd tmp in
  stage_script h fd script_path cmd working_dir ;;
  started <- try_launchers h (launchers h script_path) ;;
  if started : bool then ret tt
  else
    try_finally
      (Popen h (mkProc cmd (Some working_dir) true false))
      (try_except (os_remove h script_path) [pass_OSError]) ;;
    messagebox background_notice.

(** *** [_launch_claude] *)

(** [_get_safe_working_dir]: the current directory, or the home
    directory when that is a system directory or a root. *)
Definition _get_safe_working_dir (h : Host) : string :=
  let cwd := getcwd h in
  if platform h =? "win32" then
    let cwd_lower := lower cwd in
    if is_substring "system32" cwd_lower
       || is_substring "syswow64" cwd_lower
       || (cwd =? drive_root h)
    then home h
    else cwd
  else if cwd =? "/" then home h
  else cwd.

(** The [working_dir] of [_launch_claude]. *)
Definition working_dir_of (h : Host) (c : Config) : string :=
  or_else (strip (working_dir_var c)) (_get_safe_working_dir h).

Definition invalid_dir_error (working_dir : string) : Dialog :=
  showerror "Error" ("Working directory does not exist: " ++ working_dir)%string.

Definition launched_notice : Dialog :=
  showinfo "Launched" "Claude CLI has been launched in a new window!".

Definition not_found_error : Dialog :=
  showerror "Error"
    ("Could not find Claude CLI. Make sure 'claude' is installed and in your PATH."
     ++ chr newline ++ chr newline
     ++ "You can install it with: npm install -g @anthropic-ai/claude-code")%string.

Definition launch_failed_error (e : exn) : Dialog :=
  showerror "Error"
    ("Failed to launch Claude CLI:" ++ chr newline ++ str e)%string.

Definition _launch_claude (h : Host) (c : Config) : M unit :=
  let cmd := _build_command c in
  let working_dir := working_dir_of h c in
  if negb (isdir h working_dir) then
    messagebox (invalid_dir_error working_dir)
  else
    try_except
      ((if platform h =? "win32"
        then Popen h (mkProc cmd (Some working_dir) false true)
        else _launch_claude_unix h cmd working_dir) ;;
       messagebox launched_notice)
      [(isinstance_FileNotFoundError, fun _ => messagebox not_found_error);
       (fun _ => true, fun e => messagebox (launch_failed_error e))].

End Launcher.
Import Launcher.

(** ** Setting one field of a configuration

    [set_x v c] is [c] after [self.x.set(v)] (for a [Text] widget, after
    its content was replaced by [v]). *)

Module Update.

Definition set_working_dir (v : string) (c : Config) : Config :=
  {| claude_path_var := claude_path_var c;
     working_dir_var := v;
     prompt_var := prompt_var c;
     model_var := model_var c;
     fallback_model_var := fallback_model_var c;
     continue_var := continue_var c;
     resume_var := resume_var c;
     fork_session_var := fork_session_var c;
     session_id_var := session_id_var c;
     agent_var := agent_var c;
     agents_json_text := agents_json_text c;
     tools_text := tools_text c;
     allowed_tools_var := allowed_tools_var c;
     disallowed_tools_var := disallowed_tools_var c;
     disable_slash_commands_var := disable_slash_commands_var c;
     system_prompt_text := system_prompt_text c;
     append_prompt_text := append_prompt_text c;
     print_mode_var := print_mode_var c;
     input_format_var := input_format_var c;
     output_format_var := output_format_var c;
     json_schema_text := json_schema_text c;
     include_partial_var := include_partial_var c;
     replay_user_var := replay_user_var c;
     mcp_config_var := mcp_config_var c;
     strict_mcp_var := strict_mcp_var c;
     plugin_dirs := plugin_dirs c;
     permission_mode_var := permission_mode_var c;
     allow_skip_perms_var := allow_skip_perms_var c;
     skip_perms_var := skip_perms_var c;
     add_dirs := add_dirs c;
     file_specs_var := file_specs_var c;
     max_budget_var := max_budget_var c;
     debug_var := debug_var c;
     debug_file_var := debug_file_var c;
     verbose_var := verbose_var c;
     chrome_var := chrome_var c;
     ide_var := ide_var c;
     settings_var := settings_var c;
     setting_user_var := setting_user_var c;
     setting_project_var := setting_project_var c;
     setting_local_var := setting_local_var c;
     betas_var := betas_var c;
     no_session_persistence_var := no_session_persistence_var c |}.

Definition set_prompt (v : string) (c : Config) : Config :=
  {| claude_path_var := claude_path_var c;
     working_dir_var := working_dir_var c;
     prompt_var := v;
     model_var := model_var c;
     fallback_model_var := fallback_model_var c;
     continue_var := continue_var c;
     resume_var := resume_var c;
     fork_session_var := fork_session_var c;
     session_id_var := session_id_var c;
     agent_var := agent_var c;
     agents_json_text := agents_json_text c;
     tools_text := tools_text c;
     allowed_tools_var := allowed_tools_var c;
     disallowed_tools_var := disallowed_tools_var c;
     disable_slash_commands_var := disable_slash_commands_var c;
     system_prompt_text := system_prompt_text c;
     append_prompt_text := append_prompt_text c;
     print_mode_var := print_mode_var c;
     input_format_var := input_format_var c;
     output_format_var := output_format_var c;
     json_schema_text := json_schema_text c;
     include_partial_var := include_partial_var c;
     replay_user_var := replay_user_var c;
     mcp_config_var := mcp_config_var c;
     strict_mcp_var := strict_mcp_var c;
     plugin_dirs := plugin_dirs c;
     permission_mode_var := permission_mode_var c;
     allow_skip_perms_var := allow_skip_perms_var c;
     skip_perms_var := skip_perms_var c;
     add_dirs := add_dirs c;
     file_specs_var := file_specs_var c;
     max_budget_var := max_budget_var c;
     debug_var := debug_var c;
     debug_file_var := debug_file_var c;
     verbose_var := verbose_var c;
     chrome_var := chrome_var c;
     ide_var := ide_var c;
     settings_var := settings_var c;
     setting_user_var := setting_user_var c;
     setting_project_var := setting_project_var c;
     setting_local_var := setting_local_var c;
     betas_var := betas_var c;
     no_session_persistence_var := no_session_persistence_var c |}.

Definition set_tools_text (v : string) (c : Config) : Config :=
  {| claude_path_var := claude_path_var c;
     working_dir_var := working_dir_var c;
     prompt_var := prompt_var c;
     model_var := model_var c;
     fallback_model_var := fallback_model_var c;
     continue_var := continue_var c;
     resume_var := resume_var c;
     fork_session_var := fork_session_var c;
     session_id_var := session_id_var c;
     agent_var := agent_var c;
     agents_json_text := agents_json_text c;
     tools_text := v;
     allowed_tools_var := allowed_tools_var c;
     disallowed_tools_var := disallowed_tools_var c;
     disable_slash_commands_var := disable_slash_commands_var c;
     system_prompt_text := system_prompt_text c;
     append_prompt_text := append_prompt_text c;
     print_mode_var := print_mode_var c;
     input_format_var := input_format_var c;
     output_format_var := output_format_var c;
     json_schema_text := json_schema_text c;
     include_partial_var := include_partial_var c;
     replay_user_var := replay_user_var c;
     mcp_config_var := mcp_config_var c;
     strict_mcp_var := strict_mcp_var c;
     plugin_dirs := plugin_dirs c;
     permission_mode_var := permission_mode_var c;
     allow_skip_perms_var := allow_skip_perms_var c;
     skip_perms_var := skip_perms_var c;
     add_dirs := add_dirs c;
     file_specs_var := file_specs_var c;
     max_budget_var := max_budget_var c;
     debug_var := debug_var c;
     debug_file_var := debug_file_var c;
     verbose_var := verbose_var c;
     chrome_var := chrome_var c;
     ide_var := ide_var c;
     settings_var := settings_var c;
     setting_user_var := setting_user_var c;
     setting_project_var := setting_project_var c;
     setting_local_var := setting_local_var c;
     betas_var := betas_var c;
     no_session_persistence_var := no_session_persistence_var c |}.

Definition set_input_format (v : string) (c : Config) : Config :=
  {| claude_path_var := claude_path_var c;
     working_dir_var := working_dir_var c;
     prompt_var := prompt_var c;
     model_var := model_var c;
     fallback_model_var := fallback_model_var c;
     continue_var := continue_var c;
     resume_var := resume_var c;
     fork_session_var := fork_session_var c;
     session_id_var := session_id_var c;
     agent_var := agent_var c;
     agents_json_text := agents_json_text c;
     tools_text := tools_text c;
     allowed_tools_var := allowed_tools_var c;
     disallowed_tools_var := disallowed_tools_var c;
     disable_slash_commands_var := disable_slash_commands_var c;
     system_prompt_text := system_prompt_text c;
     append_prompt_text := append_prompt_text c;
     print_mode_var := print_mode_var c;
     input_format_var := v;
     output_format_var := output_format_var c;
     json_schema_text := json_schema_text c;
     include_partial_var := include_partial_var c;
     replay_user_var := replay_user_var c;
     mcp_config_var := mcp_config_var c;
     strict_mcp_var := strict_mcp_var c;
     plugin_dirs := plugin_dirs c;
     permission_mode_var := permission_mode_var c;
     allow_skip_perms_var := allow_skip_perms_var c;
     skip_perms_var := skip_perms_var c;
     add_dirs := add_dirs c;
     file_specs_var := file_specs_var c;
     max_budget_var := max_budget_var c;
     debug_var := debug_var c;
     debug_file_var := debug_file_var c;
     verbose_var := verbose_var c;
     chrome_var := chrome_var c;
     ide_var := ide_var c;
     settings_var := settings_var c;
     setting_user_var := setting_user_var c;
     setting_project_var := setting_project_var c;
     setting_local_var := setting_local_var c;
     betas_var := betas_var c;
     no_session_persistence_var := no_session_persistence_var c |}.

Definition set_output_format (v : string) (c : Config) : Config :=
  {| claude_path_var := claude_path_var c;
     working_dir_var := working_dir_var c;
     prompt_var := prompt_var c;
     model_var := model_var c;
     fallback_model_var := fallback_model_var c;
     continue_var := continue_var c;
     resume_var := resume_var c;
     fork_session_var := fork_session_var c;
     session_id_var := session_id_var c;
     agent_var := agent_var c;
     agents_json_text := agents_json_text c;
     tools_text := tools_text c;
     allowed_tools_var := allowed_tools_var c;
     disallowed_tools_var := disallowed_tools_var c;
     disable_slash_commands_var := disable_slash_commands_var c;
     system_prompt_text := system_prompt_text c;
     append_prompt_text := append_prompt_text c;
     print_mode_var := print_mode_var c;
     input_format_var := input_format_var c;
     output_format_var := v;
     json_schema_text := json_schema_text c;
     include_partial_var := include_partial_var c;
     replay_user_var := replay_user_var c;
     mcp_config_var := mcp_config_var c;
     strict_mcp_var := strict_mcp_var c;
     plugin_dirs := plugin_dirs c;
     permission_mode_var := permission_mode_var c;
     allow_skip_perms_var := allow_skip_perms_var c;
     skip_perms_var := skip_perms_var c;
     add_dirs := add_dirs c;
     file_specs_var := file_specs_var c;
     max_budget_var := max_budget_var c;
     debug_var := debug_var c;
     debug_file_var := debug_file_var c;
     verbose_var := verbose_var c;
     chrome_var := chrome_var c;
     ide_var := ide_var c;
     settings_var := settings_var c;
     setting_user_var := setting_user_var c;
     setting_project_var := setting_project_var c;
     setting_local_var := setting_local_var c;
     betas_var := betas_var c;
     no_session_persistence_var := no_session_persistence_var c |}.

Definition set_permission_mode (v : string) (c : Config) : Config :=
  {| claude_path_var := claude_path_var c;
     working_dir_var := working_dir_var c;
     prompt_var := prompt_var c;
     model_var := model_var c;
     fallback_model_var := fallback_model_var c;
     continue_var := continue_var c;
     resume_var := resume_var c;
     fork_session_var := fork_session_var c;
     session_id_var := session_id_var c;
     agent_var := agent_var c;
     agents_json_text := agents_json_text c;
     tools_text := tools_text c;
     allowed_tools_var := allowed_tools_var c;
     disallowed_tools_var := disallowed_tools_var c;
     disable_slash_commands_var := disable_slash_commands_var c;
     system_prompt_text := system_prompt_text c;
     append_prompt_text := append_prompt_text c;
     print_mode_var := print_mode_var c;
     input_format_var := input_format_var c;
     output_format_var := output_format_var c;
     json_schema_text := json_schema_text c;
     include_partial_var := include_partial_var c;
     replay_user_var := replay_user_var c;
     mcp_config_var := mcp_config_var c;
     strict_mcp_var := strict_mcp_var c;
     plugin_dirs := plugin_dirs c;
     permission_mode_var := v;
     allow_skip_perms_var := allow_skip_perms_var c;
     skip_perms_var := skip_perms_var c;
     add_dirs := add_dirs c;
     file_specs_var := file_specs_var c;
     max_budget_var := max_budget_var c;
     debug_var := debug_var c;
     debug_file_var := debug_file_var c;
     verbose_var := verbose_var c;
     chrome_var := chrome_var c;
     ide_var := ide_var c;
     settings_var := settings_var c;
     setting_user_var := setting_user_var c;
     setting_project_var := setting_project_var c;
     setting_local_var := setting_local_var c;
     betas_var := betas_var c;
     no_session_persistence_var := no_session_persistence_var c |}.

Definition set_chrome (v : string) (c : Config) : Config :=
  {| claude_path_var := claude_path_var c;
     working_dir_var := working_dir_var c;
     prompt_var := prompt_var c;
     model_var := model_var c;
     fallback_model_var := fallback_model_var c;
     continue_var := continue_var c;
     resume_var := resume_var c;
     fork_session_var := fork_session_var c;
     session_id_var := session_id_var c;
     agent_var := agent_var c;
     agents_json_text := agents_json_text c;
     tools_text := tools_text c;
     allowed_tools_var := allowed_tools_var c;
     disallowed_tools_var := disallowed_tools_var c;
     disable_slash_commands_var := disable_slash_commands_var c;
     system_prompt_text := system_prompt_text c;
     append_prompt_text := append_prompt_text c;
     print_mode_var := print_mode_var c;
     input_format_var := input_format_var c;
     output_format_var := output_format_var c;
     json_schema_text := json_schema_text c;
     include_partial_var := include_partial_var c;
     replay_user_var := replay_user_var c;
     mcp_config_var := mcp_config_var c;
     strict_mcp_var := strict_mcp_var c;
     plugin_dirs := plugin_dirs c;
     permission_mode_var := permission_mode_var c;
     allow_skip_perms_var := allow_skip_perms_var c;
     skip_perms_var := skip_perms_var c;
     add_dirs := add_dirs c;
     file_specs_var := file_specs_var c;
     max_budget_var := max_budget_var c;
     debug_var := debug_var c;
     debug_file_var := debug_file_var c;
     verbose_var := verbose_var c;
     chrome_var := v;
     ide_var := ide_var c;
     settings_var := settings_var c;
     setting_user_var := setting_user_var c;
     setting_project_var := setting_project_var c;
     setting_local_var := setting_local_var c;
     betas_var := betas_var c;
     no_session_persistence_var := no_session_persistence_var c |}.

End Update.
Import Update.

(** The configuration with every field empty, unchecked or at its default:
    what [_reset_all] leaves, but for the model and the executable path,
    which are parameters here. *)
Definition base_config (claude_path model prompt : string) : Config :=
  {| claude_path_var := claude_path;
     working_dir_var := EmptyString;
     prompt_var := prompt;
     model_var := model;
     fallback_model_var := EmptyString;
     continue_var := false;
     resume_var := EmptyString;
     fork_session_var := false;
     session_id_var := EmptyString;
     agent_var := EmptyString;
     agents_json_text := EmptyString;
     tools_text := EmptyString;
     allowed_tools_var := EmptyString;
     disallowed_tools_var := EmptyString;
     disable_slash_commands_var := false;
     system_prompt_text := EmptyString;
     append_prompt_text := EmptyString;
     print_mode_var := false;
     input_format_var := "text";
     output_format_var := "text";
     json_schema_text := EmptyString;
     include_partial_var := false;
     replay_user_var := false;
     mcp_config_var := EmptyString;
     strict_mcp_var := false;
     plugin_dirs := [];
     permission_mode_var := "default";
     allow_skip_perms_var := false;
     skip_perms_var := false;
     add_dirs := [];
     file_specs_var := EmptyString;
     max_budget_var := EmptyString;
     debug_var := EmptyString;
     debug_file_var := EmptyString;
     verbose_var := false;
     chrome_var := "default";
     ide_var := false;
     settings_var := EmptyString;
     setting_user_var := false;
     setting_project_var := false;
     setting_local_var := false;
     betas_var := EmptyString;
     no_session_persistence_var := false |}.

(** The marker the Tools tab documents for an explicitly empty tool list
    ([Use "" to disable all]): two double-quote characters. *)
Definition empty_tools_marker : string := String dquote (chr dquote).

(** ** Launch scenarios *)

Module Scenario.

(** Staging succeeds: [mkstemp] returns the descriptor [fd], not open
    before, and the path [script_path]; writing, closing and the
    permission change do not fail. *)
Definition staging_succeeds (h : Host) (w : World) (fd : nat)
  (script_path : string) : Prop :=
  mkstemp_result h = Ok (fd, script_path)
  /\ fd_path fd w = None
  /\ write_error h = None /\ close_error h = None /\ chmod_error h = None.

(** A terminal candidate fails to resolve, or resolves and fails to
    start with an [OSError]. *)
Definition candidate_fails (h : Host) (argv : list string) : Prop :=
  resolves h argv = false
  \/ exists e, popen_error h argv = Some e /\ isinstance_OSError e = true.

Definition no_terminal (h : Host) (script_path : string) : Prop :=
  Forall (candidate_fails h) (launchers h script_path).

(** The [Popen] calls the probing loop makes for the candidates of [ls]
    that resolve. *)
Definition attempts (h : Host) (ls : list (list string)) : list Call :=
  flat_map (fun argv =>
              if resolves h argv
              then [call_Popen (mkProc argv None true false)]
              else []) ls.

(** The direct spawn of the fallback: the raw command, in the working
    directory, in a new session, with no terminal. *)
Definition direct_spawn (cmd : list string) (working_dir : string) : Proc :=
  mkProc cmd (Some working_dir) true false.

(** The four calls of a successful staging, and the world they leave:
    the script written and closed. *)
Definition staging_calls (fd : nat) (script_path content : string)
  : list Call :=
  [call_mkstemp; call_write fd content; call_close fd;
   call_chmod script_path S_IRWXU].

Definition staged (w : World) (fd : nat) (script_path content : string)
  : World :=
  mkWorld
    (without_path script_path (files w ++ [(script_path, EmptyString)])
     ++ [(script_path, content)])
    (open_fds w) (procs w) (dialogs w)
    (calls w ++ staging_calls fd script_path content).

(** The calls of a launch that ends in the fallback: the staging, the
    probes, the direct spawn, the removal of the script. *)
Definition fallback_calls (h : Host) (fd : nat) (script_path : string)
  (cmd : list string) (working_dir : string) : list Call :=
  staging_calls fd script_path (script_content cmd working_dir script_path)
  ++ attempts h (launchers h script_path)
  ++ [call_Popen (direct_spawn cmd working_dir); call_remove script_path].

(** A POSIX host with no terminal emulator and no [claude] on the
    search path; file-system calls succeed. *)
Definition bare_host : Host :=
  {| platform := "linux";
     getcwd := "/home/user";
     home := "/home/user";
     drive_root := "/";
     isdir := fun d => d =? "/home/user";
     mkstemp_result := Ok (3, "/tmp/claude_gui_x.sh");
     write_error := None;
     close_error := None;
     chmod_error := None;
     remove_error := None;
     which := fun _ => None;
     path_exists := fun _ => false;
     popen_error := fun _ => Some (mkExn FileNotFoundError
                                     "[Errno 2] No such file or directory: 'claude'") |}.

(** The same host with [claude] installed: the direct spawn succeeds. *)
Definition headless_host : Host :=
  {| platform := "linux";
     getcwd := "/home/user";
     home := "/home/user";
     drive_root := "/";
     isdir := fun d => d =? "/home/user";
     mkstemp_result := Ok (3, "/tmp/claude_gui_x.sh");
     write_error := None;
     close_error := None;
     chmod_error := None;
     remove_error := None;
     which := fun _ => None;
     path_exists := fun _ => false;
     popen_error := fun _ => None |}.

(** The headless host on a file system that refuses the permission
    change. *)
Definition chmod_refused_host : Host :=
  {| platform := "linux";
     getcwd := "/home/user";
     home := "/home/user";
     drive_root := "/";
     isdir := fun d => d =? "/home/user";
     mkstemp_result := Ok (3, "/tmp/claude_gui_x.sh");
     write_error := None;
     close_error := None;
     chmod_error := Some (mkExn OSError "[Errno 1] Operation not permitted");
     remove_error := None;
     which := fun _ => None;
     path_exists := fun _ => false;
     popen_error := fun _ => None |}.

(** The headless host with a full disk: the write fails. *)
Definition disk_full_host : Host :=
  {| platform := "linux";
     getcwd := "/home/user";
     home := "/home/user";
     drive_root := "/";
     isdir := fun d => d =? "/home/user";
     mkstemp_result := Ok (3, "/tmp/claude_gui_x.sh");
     write_error := Some (mkExn OSError "[Errno 28] No space left on device");
     close_error := None;
     chmod_error := None;
     remove_error := None;
     which := fun _ => None;
     path_exists := fun _ => false;
     popen_error := fun _ => None |}.

(** A configuration whose working directory does not exist on these
    hosts. *)
Definition lost_dir_config : Config :=
  set_working_dir "/no/such/dir" (base_config "claude" "opus" "hello").

End Scenario.
Import Scenario.

(** ** The rest of the window: lists, path detection, reset

    The state of the window beside the variables: the two list boxes,
    which mirror [plugin_dirs] and [add_dirs], and the text of the command
    preview.  The answers of the dialogs (a chosen path, the selection of a
    list box, yes or no) are parameters of the handlers. *)

Module Window.


Definition set_claude_path (v : string) (c : Config) : Config :=
  {| claude_path_var := v;
     working_dir_var := working_dir_var c;
     prompt_var := prompt_var c;
     model_var := model_var c;
     fallback_model_var := fallback_model_var c;
     continue_var := continue_var c;
     resume_var := resume_var c;
     fork_session_var := fork_session_var c;
     session_id_var := session_id_var c;
     agent_var := agent_var c;
     agents_json_text := agents_json_text c;
     tools_text := tools_text c;
     allowed_tools_var := allowed_tools_var c;
     disallowed_tools_var := disallowed_tools_var c;
     disable_slash_commands_var := disable_slash_commands_var c;
     system_prompt_text := system_prompt_text c;
     append_prompt_text := append_prompt_text c;
     print_mode_var := print_mode_var c;
     input_format_var := input_format_var c;
     output_format_var := output_format_var c;
     json_schema_text := json_schema_text c;
     include_partial_var := include_partial_var c;
     replay_user_var := replay_user_var c;
     mcp_config_var := mcp_config_var c;
     strict_mcp_var := strict_mcp_var c;
     plugin_dirs := plugin_dirs c;
     permission_mode_var := permission_mode_var c;
     allow_skip_perms_var := allow_skip_perms_var c;
     skip_perms_var := skip_perms_var c;
     add_dirs := add_dirs c;
     file_specs_var := file_specs_var c;
     max_budget_var := max_budget_var c;
     debug_var := debug_var c;
     debug_file_var := debug_file_var c;
     verbose_var := verbose_var c;
     chrome_var := chrome_var c;
     ide_var := ide_var c;
     settings_var := settings_var c;
     setting_user_var := setting_user_var c;
     setting_project_var := setting_project_var c;
     setting_local_var := setting_local_var c;
     betas_var := betas_var c;
     no_session_persistence_var := no_session_persistence_var c |}.


Definition set_plugin_dirs (v : list string) (c : Config) : Config :=
  {| claude_path_var := claude_path_var c;
     working_dir_var := working_dir_var c;
     prompt_var := prompt_var c;
     model_var := model_var c;
     fallback_model_var := fallback_model_var c;
     continue_var := continue_var c;
     resume_var := resume_var c;
     fork_session_var := fork_session_var c;
     session_id_var := session_id_var c;
     agent_var := agent_var c;
     agents_json_text := agents_json_text c;
     tools_text := tools_text c;
     allowed_tools_var := allowed_tools_var c;
     disallowed_tools_var := disallowed_tools_var c;
     disable_slash_commands_var := disable_slash_commands_var c;
     system_prompt_text := system_prompt_text c;
     append_prompt_text := append_prompt_text c;
     print_mode_var := print_mode_var c;
     input_format_var := input_format_var c;
     output_format_var := output_format_var c;
     json_schema_text := json_schema_text c;
     include_partial_var := include_partial_var c;
     replay_user_var := replay_user_var c;
     mcp_config_var := mcp_config_var c;
     strict_mcp_var := strict_mcp_var c;
     plugin_dirs := v;
     permission_mode_var := permission_mode_var c;
     allow_skip_perms_var := allow_skip_perms_var c;
     skip_perms_var := skip_perms_var c;
     add_dirs := add_dirs c;
     file_specs_var := file_specs_var c;
     max_budget_var := max_budget_var c;
     debug_var := debug_var c;
     debug_file_var := debug_file_var c;
     verbose_var := verbose_var c;
     chrome_var := chrome_var c;
     ide_var := ide_var c;
     settings_var := settings_var c;
     setting_user_var := setting_user_var c;
     setting_project_var := setting_project_var c;
     setting_local_var := setting_local_var c;
     betas_var := betas_var c;
     no_session_persistence_var := no_session_persistence_var c |}.


Definition set_add_dirs (v : list string) (c : Config) : Config :=
  {| claude_path_var := claude_path_var c;
     working_dir_var := working_dir_var c;
     prompt_var := prompt_var c;
     model_var := model_var c;
     fallback_model_var := fallback_model_var c;
     continue_var := continue_var c;
     resume_var := resume_var c;
     fork_session_var := fork_session_var c;
     session_id_var := session_id_var c;
     agent_var := agent_var c;
     agents_json_text := agents_json_text c;
     tools_text := tools_text c;
     allowed_tools_var := allowed_tools_var c;
     disallowed_tools_var := disallowed_tools_var c;
     disable_slash_commands_var := disable_slash_commands_var c;
     system_prompt_text := system_prompt_text c;
     append_prompt_text := append_prompt_text c;
     print_mode_var := print_mode_var c;
     input_format_var := input_format_var c;
     output_format_var := output_format_var c;
     json_schema_text := json_schema_text c;
     include_partial_var := include_partial_var c;
     replay_user_var := replay_user_var c;
     mcp_config_var := mcp_config_var c;
     strict_mcp_var := strict_mcp_var c;
     plugin_dirs := plugin_dirs c;
     permission_mode_var := permission_mode_var c;
     allow_skip_perms_var := allow_skip_perms_var c;
     skip_perms_var := skip_perms_var c;
     add_dirs := v;
     file_specs_var := file_specs_var c;
     max_budget_var := max_budget_var c;
     debug_var := debug_var c;
     debug_file_var := debug_file_var c;
     verbose_var := verbose_var c;
     chrome_var := chrome_var c;
     ide_var := ide_var c;
     settings_var := settings_var c;
     setting_user_var := setting_user_var c;
     setting_project_var := setting_project_var c;
     setting_local_var := setting_local_var c;
     betas_var := betas_var c;
     no_session_persistence_var := no_session_persistence_var c |}.


(** The configuration with each [Text] field replaced by its stripped
    content. *)
Definition strip_texts (c : Config) : Config :=
  {| claude_path_var := claude_path_var c;
     working_dir_var := working_dir_var c;
     prompt_var := prompt_var c;
     model_var := model_var c;
     fallback_model_var := fallback_model_var c;
     continue_var := continue_var c;
     resume_var := resume_var c;
     fork_session_var := fork_session_var c;
     session_id_var := session_id_var c;
     agent_var := agent_var c;
     agents_json_text := strip (agents_json_text c);
     tools_text := strip (tools_text c);
     allowed_tools_var := allowed_tools_var c;
     disallowed_tools_var := disallowed_tools_var c;
     disable_slash_commands_var := disable_slash_commands_var c;
     system_prompt_text := strip (system_prompt_text c);
     append_prompt_text := strip (append_prompt_text c);
     print_mode_var := print_mode_var c;
     input_format_var := input_format_var c;
     output_format_var := output_format_var c;
     json_schema_text := strip (json_schema_text c);
     include_partial_var := include_partial_var c;
     replay_user_var := replay_user_var c;
     mcp_config_var := mcp_config_var c;
     strict_mcp_var := strict_mcp_var c;
     plugin_dirs := plugin_dirs c;
     permission_mode_var := permission_mode_var c;
     allow_skip_perms_var := allow_skip_perms_var c;
     skip_perms_var := skip_perms_var c;
     add_dirs := add_dirs c;
     file_specs_var := file_specs_var c;
     max_budget_var := max_budget_var c;
     debug_var := debug_var c;
     debug_file_var := debug_file_var c;
     verbose_var := verbose_var c;
     chrome_var := chrome_var c;
     ide_var := ide_var c;
     settings_var := settings_var c;
     setting_user_var := setting_user_var c;
     setting_project_var := setting_project_var c;
     setting_local_var := setting_local_var c;
     betas_var := betas_var c;
     no_session_persistence_var := no_session_persistence_var c |}.


(** What [widget.get("1.0", tk.END)] returns for an empty [Text] widget:
    the newline Tk keeps at the end. *)
Definition empty_text : string := chr newline.

(** [_init_variables], with the [Text] widgets as created (empty), for
    the executable path and the working directory found. *)
Definition init_vars (claude_path working_dir : string) : Config :=
  {| claude_path_var := claude_path;
     working_dir_var := working_dir;
     prompt_var := EmptyString;
     model_var := "opus";
     fallback_model_var := EmptyString;
     continue_var := false;
     resume_var := EmptyString;
     fork_session_var := false;
     session_id_var := EmptyString;
     agent_var := EmptyString;
     agents_json_text := empty_text;
     tools_text := empty_text;
     allowed_tools_var := EmptyString;
     disallowed_tools_var := EmptyString;
     disable_slash_commands_var := false;
     system_prompt_text := empty_text;
     append_prompt_text := empty_text;
     print_mode_var := false;
     input_format_var := "text";
     output_format_var := "text";
     json_schema_text := empty_text;
     include_partial_var := false;
     replay_user_var := false;
     mcp_config_var := EmptyString;
     strict_mcp_var := false;
     plugin_dirs := [];
     permission_mode_var := "default";
     allow_skip_perms_var := false;
     skip_perms_var := false;
     add_dirs := [];
     file_specs_var := EmptyString;
     max_budget_var := EmptyString;
     debug_var := EmptyString;
     debug_file_var := EmptyString;
     verbose_var := false;
     chrome_var := "default";
     ide_var := false;
     settings_var := EmptyString;
     setting_user_var := false;
     setting_project_var := false;
     setting_local_var := false;
     betas_var := EmptyString;
     no_session_persistence_var := false |}.

(** The variables and [Text] widgets as [_reset_all] leaves them, line
    by line. *)
Definition reset_vars (claude_path working_dir : string) : Config :=
  {| claude_path_var := claude_path;
     working_dir_var := working_dir;
     prompt_var := EmptyString;
     model_var := "opus";
     fallback_model_var := EmptyString;
     continue_var := false;
     resume_var := EmptyString;
     fork_session_var := false;
     session_id_var := EmptyString;
     agent_var := EmptyString;
     agents_json_text := empty_text;
     tools_text := empty_text;
     allowed_tools_var := EmptyString;
     disallowed_tools_var := EmptyString;
     disable_slash_commands_var := false;
     system_prompt_text := empty_text;
     append_prompt_text := empty_text;
     print_mode_var := false;
     input_format_var := "text";
     output_format_var := "text";
     json_schema_text := empty_text;
     include_partial_var := false;
     replay_user_var := false;
     mcp_config_var := EmptyString;
     strict_mcp_var := false;
     plugin_dirs := [];
     permission_mode_var := "default";
     allow_skip_perms_var := false;
     skip_perms_var := false;
     add_dirs := [];
     file_specs_var := EmptyString;
     max_budget_var := EmptyString;
     debug_var := EmptyString;
     debug_file_var := EmptyString;
     verbose_var := false;
     chrome_var := "default";
     ide_var := false;
     settings_var := EmptyString;
     setting_user_var := false;
     setting_project_var := false;
     setting_local_var := false;
     betas_var := EmptyString;
     no_session_persistence_var := false |}.

Record Gui := mkGui {
  vars : Config;
  plugin_listbox : list string;
  add_dir_listbox : list string;
  command_preview : string
}.

(** [_update_command_preview]: the preview text is replaced by the
    command string. *)
Definition _update_command_preview (h : Host) (g : Gui) : Gui :=
  mkGui (vars g) (plugin_listbox g) (add_dir_listbox g)
        (_get_command_string (platform h) (vars g)).

(** [path in dirs]. *)
Definition elem (path : string) (dirs : list string) : bool :=
  existsb (String.eqb path) dirs.

(** [del l[idx]] and [listbox.delete(idx)] for an index in range; the
    list box ignores an index out of range. *)
Definition remove_at {A} (idx : nat) (l : list A) : list A :=
  firstn idx l ++ skipn (S idx) l.

(** [_add_plugin_dir]; [path] is what [filedialog.askdirectory()]
    returned (empty when the dialog was cancelled). *)
Definition _add_plugin_dir (h : Host) (path : string) (g : Gui) : Gui :=
  if truthy path && negb (elem path (plugin_dirs (vars g))) then
    _update_command_preview h
      (mkGui (set_plugin_dirs (plugin_dirs (vars g) ++ [path]) (vars g))
             (plugin_listbox g ++ [path]) (add_dir_listbox g)
             (command_preview g))
  else g.

(** [_add_directory]. *)
Definition _add_directory (h : Host) (path : string) (g : Gui) : Gui :=
  if truthy path && negb (elem path (add_dirs (vars g))) then
    _update_command_preview h
      (mkGui (set_add_dirs (add_dirs (vars g) ++ [path]) (vars g))
             (plugin_listbox g) (add_dir_listbox g ++ [path])
             (command_preview g))
  else g.

Definition IndexError : exn :=
  mkExn Exception "list assignment index out of range".

(** [_remove_plugin_dir]; [selection] is what
    [plugin_listbox.curselection()] returned.  The list box entry is
    deleted first; [del self.plugin_dirs[idx]] raises [IndexError] when
    the list has no such index. *)
Definition _remove_plugin_dir (h : Host) (selection : list nat) (g : Gui)
  : result unit * Gui :=
  match selection with
  | [] => (Ok tt, g)
  | idx :: _ =>
      let g1 := mkGui (vars g) (remove_at idx (plugin_listbox g))
                      (add_dir_listbox g) (command_preview g) in
      if Nat.ltb idx (length (plugin_dirs (vars g))) then
        (Ok tt,
         _update_command_preview h
           (mkGui (set_plugin_dirs (remove_at idx (plugin_dirs (vars g)))
                     (vars g))
                  (plugin_listbox g1) (add_dir_listbox g1)
                  (command_preview g1)))
      else (Raise IndexError, g1)
  end.

(** [_remove_directory]. *)
Definition _remove_directory (h : Host) (selection : list nat) (g : Gui)
  : result unit * Gui :=
  match selection with
  | [] => (Ok tt, g)
  | idx :: _ =>
      let g1 := mkGui (vars g) (plugin_listbox g)
                      (remove_at idx (add_dir_listbox g))
                      (command_preview g) in
      if Nat.ltb idx (length (add_dirs (vars g))) then
        (Ok tt,
         _update_command_preview h
           (mkGui (set_add_dirs (remove_at idx (add_dirs (vars g))) (vars g))
                  (plugin_listbox g1) (add_dir_listbox g1)
                  (command_preview g1)))
      else (Raise IndexError, g1)
  end.

(** The [possible_paths] of [_find_claude_path]; [expanduser] is
    [os.path.expanduser]. *)
Definition possible_paths (h : Host) (expanduser : string -> string)
  : list string :=
  if platform h =? "win32" then
    [expanduser "~\.local\bin\claude.exe";
     expanduser "~\.local\bin\claude";
     expanduser "~\AppData\Local\Programs\claude\claude.exe";
     expanduser "~\AppData\Roaming\npm\claude.cmd"]
  else
    [expanduser "~/.local/bin/claude";
     "/usr/local/bin/claude";
     "/opt/homebrew/bin/claude";
     expanduser "~/.nvm/current/bin/claude"].

(** [_find_claude_path]: the search path first, then the first of the
    common locations that exists, then the bare name. *)
Definition _find_claude_path (h : Host) (expanduser : string -> string)
  : string :=
  let in_common_places :=
    match find (path_exists h) (possible_paths h expanduser) with
    | Some p => p
    | None => "claude"
    end in
  match which h "claude" with
  | Some claude_path =>
      if truthy claude_path then claude_path else in_common_places
  | None => in_common_places
  end.

(** The message boxes of [_autodetect_claude_path]. *)
Inductive Box :=
| showwarning (title message : string)
| showinfo' (title message : string).

Definition not_detected_warning : Box :=
  showwarning "Not Found"
    ("Could not auto-detect Claude CLI path." ++ chr newline ++ chr newline
     ++ "Please browse to select the claude executable manually,"
     ++ chr newline
     ++ "or ensure it's installed and in your PATH.")%string.

Definition detected_info (path : string) : Box :=
  showinfo' "Found" ("Claude CLI found at:" ++ chr newline ++ path)%string.

(** [_autodetect_claude_path]: the new state and the box shown. *)
Definition _autodetect_claude_path (h : Host) (expanduser : string -> string)
  (g : Gui) : Gui * Box :=
  let path := _find_claude_path h expanduser in
  let g' := _update_command_preview h
              (mkGui (set_claude_path path (vars g)) (plugin_listbox g)
                     (add_dir_listbox g) (command_preview g)) in
  (g', if path =? "claude" then not_detected_warning else detected_info path).

(** The window when [__init__] returns. *)
Definition initial_gui (h : Host) (expanduser : string -> string) : Gui :=
  _update_command_preview h
    (mkGui (init_vars (_find_claude_path h expanduser)
              (_get_safe_working_dir h))
           [] [] EmptyString).

(** [_reset_all]; [confirmed] is the answer to the "Reset all settings to
    defaults?" question. *)
Definition _reset_all (h : Host) (expanduser : string -> string)
  (confirmed : bool) (g : Gui) : Gui :=
  if negb confirmed then g
  else
    _update_command_preview h
      (mkGui (reset_vars (_find_claude_path h expanduser)
                (_get_safe_working_dir h))
             [] [] (command_preview g)).

(** The list boxes show the two lists, and the preview shows the command
    of the current variables. *)
Definition in_sync (h : Host) (g : Gui) : Prop :=
  plugin_listbox g = plugin_dirs (vars g)
  /\ add_dir_listbox g = add_dirs (vars g)
  /\ command_preview g = _get_command_string (platform h) (vars g).

(** No directory twice, none empty. *)
Definition dirs_well_formed (dirs : list string) : Prop :=
  NoDup dirs /\ Forall (fun d => d <> EmptyString) dirs.

End Window.
Import Window.

(** ** More launch scenarios *)

(** The headless host with [xterm] installed. *)
Definition xterm_host : Host :=
  {| platform := "linux";
     getcwd := "/home/user";
     home := "/home/user";
     drive_root := "/";
     isdir := fun d => d =? "/home/user";
     mkstemp_result := Ok (3, "/tmp/claude_gui_x.sh");
     write_error := None;
     close_error := None;
     chmod_error := None;
     remove_error := None;
     which := fun name => if name =? "xterm" then Some "/usr/bin/xterm"
                          else None;
     path_exists := fun p => p =? "/usr/bin/xterm";
     popen_error := fun _ => None |}.

(** A POSIX host without a usable temporary directory. *)
Definition no_tmp_host : Host :=
  {| platform := "linux";
     getcwd := "/home/user";
     home := "/home/user";
     drive_root := "/";
     isdir := fun d => d =? "/home/user";
     mkstemp_result :=
       Raise (mkExn FileNotFoundError
                "[Errno 2] No usable temporary directory found");
     write_error := None;
     close_error := None;
     chmod_error := None;
     remove_error := None;
     which := fun _ => None;
     path_exists := fun _ => false;
     popen_error := fun _ => None |}.


(** A Windows host with [claude] installed. *)
Definition windows_host : Host :=
  {| platform := "win32";
     getcwd := "C:\Windows\System32";
     home := "C:\Users\me";
     drive_root := "C:\";
     isdir := fun d => d =? "C:\Users\me";
     mkstemp_result := Ok (3, "C:\Temp\claude_gui_x.sh");
     write_error := None;
     close_error := None;
     chmod_error := None;
     remove_error := None;
     which := fun _ => None;
     path_exists := fun _ => false;
     popen_error := fun _ => None |}.

(** The process of the Windows branch: the raw command in the working
    directory, with [CREATE_NEW_CONSOLE]. *)
Definition console_spawn (cmd : list string) (working_dir : string) : Proc :=
  mkProc cmd (Some working_dir) false true.

(** The error box for an exception that reaches [_launch_claude]. *)
Definition error_box (e : exn) : Dialog :=
  if isinstance_FileNotFoundError e then not_found_error
  else launch_failed_error e.

(** ** Reasoning about effectful code *)

(** Run from [w], the computation [m] ends with a result and in a world
    that satisfy [Q]. *)
Definition post {A} (m : M A) (w : World) (Q : result A -> World -> Prop)
  : Prop :=
  Q (fst (m w)) (snd (m w)).

(** Nothing the user sees changed: same processes, same boxes. *)
Definition unseen (w w' : World) : Prop :=
  procs w' = procs w /\ dialogs w' = dialogs w.

(** Nothing but the log of calls changed. *)
Definition only_logged (w w' : World) : Prop :=
  files w' = files w /\ open_fds w' = open_fds w
  /\ procs w' = procs w /\ dialogs w' = dialogs w.

Definition raised {A} (r : result A) : Prop := exists e, r = Raise e.

(** [m] keeps the relation [R] between the world it starts in and the
    world it leaves, whatever it returns. *)
Definition keeps (R : World -> World -> Prop) {A} (m : M A) : Prop :=
  forall w, R w (snd (m w)).

(** The same descriptors are open. *)
Definition same_fds (w w' : World) : Prop := open_fds w' = open_fds w.

(** The outcomes of [_launch_claude_unix], by what the user can see of
    them: a failure before anything was started; a terminal candidate
    started on the script; the raw command started in the background,
    with the notice; the raw command started and an exception raised
    afterwards. *)
Definition unix_outcome (h : Host) (cmd : list string) (working_dir : string)
  (w : World) (r : result unit) (w' : World) : Prop :=
  (raised r /\ unseen w w')
  \/ (r = Ok tt /\ dialogs w' = dialogs w
      /\ exists script_path argv,
           In argv (launchers h script_path)
           /\ procs w' = procs w ++ [mkProc argv None true false])
  \/ (r = Ok tt /\ dialogs w' = dialogs w ++ [background_notice]
      /\ procs w' = procs w ++ [direct_spawn cmd working_dir])
  \/ (raised r /\ dialogs w' = dialogs w
      /\ procs w' = procs w ++ [direct_spawn cmd working_dir]).

(** ** Tokens and their order *)

(** [sub] is a subsequence of [l]: its tokens occur in [l] in the same
    order, possibly with others between them. *)
Fixpoint subseq (sub l : list string) : Prop :=
  match sub, l with
  | [], _ => True
  | _ :: _, [] => False
  | x :: sub', y :: l' => (x = y /\ subseq sub' l') \/ subseq sub l'
  end.

(** A configuration with continue, a resume token, fork-session, print
    mode and the json output format set. *)
Definition scenario_B_config : Config :=
  {| claude_path_var := "claude"; working_dir_var := EmptyString;
     prompt_var := "hello"; model_var := "opus";
     fallback_model_var := EmptyString; continue_var := true;
     resume_var := "abc"; fork_session_var := true;
     session_id_var := EmptyString; agent_var := EmptyString;
     agents_json_text := EmptyString; tools_text := EmptyString;
     allowed_tools_var := EmptyString;
     disallowed_tools_var := EmptyString;
     disable_slash_commands_var := false;
     system_prompt_text := EmptyString;
     append_prompt_text := EmptyString; print_mode_var := true;
     input_format_var := "text"; output_format_var := "json";
     json_schema_text := EmptyString; include_partial_var := false;
     replay_user_var := false; mcp_config_var := EmptyString;
     strict_mcp_var := false; plugin_dirs := [];
     permission_mode_var := "default"; allow_skip_perms_var := false;
     skip_perms_var := false; add_dirs := [];
     file_specs_var := EmptyString; max_budget_var := EmptyString;
     debug_var := EmptyString; debug_file_var := EmptyString;
     verbose_var := false; chrome_var := "default"; ide_var := false;
     settings_var := EmptyString; setting_user_var := false;
     setting_project_var := false; setting_local_var := false;
     betas_var := EmptyString; no_session_persistence_var := false |}.

(** The word in progress after the characters of [s] were added. *)
Definition extend (cur : option string) (s : string) : option string :=
  match s with
  | EmptyString => cur
  | String _ _ =>
      Some (match cur with
            | None => s
            | Some w => (w ++ s)%string
            end)
  end.

(** What follows a rendered token in a preview: nothing, or a space and
    the rendering of the tokens after it. *)
Definition separated (k : string) : Prop :=
  k = EmptyString \/ exists r, k = String " " r.

(** The words read after a token, when [k] follows it. *)
Definition posix_rest (k : string) : option (list string) :=
  match k with
  | EmptyString => Some []
  | String _ r => PosixShell.words PosixShell.Plain None r
  end.

Definition win_rest (k : string) : list string :=
  match k with
  | EmptyString => []
  | String _ r => WinArgv.args false 0 None r
  end.

(** A token that the Windows rendering reads back: where [after_backslash]
    tells that the character before was a backslash, no backslash stands
    right before a double quote or at the very end. *)
Fixpoint no_backslash_before_quote (after_backslash : bool) (s : string)
  : bool :=
  match s with
  | EmptyString => negb after_backslash
  | String c r =>
      if Ascii.eqb c backslash then no_backslash_before_quote true r
      else if Ascii.eqb c dquote
           then negb after_backslash && no_backslash_before_quote false r
           else no_backslash_before_quote false r
  end.

(** The test of [_quote_arg] for wrapping a token in double quotes. *)
Definition needs_win_quotes (arg : string) : bool :=
  contains " " arg || contains dquote arg || contains tab arg
  || contains newline arg || has_cmd_metachar arg.

Definition win_readable (arg : string) : bool :=
  if needs_win_quotes arg then no_backslash_before_quote false arg else true.

(** A Windows path with spaces, backslashes and double quotes. *)
Definition windows_sample_token : string :=
  ("C:\My Files\say " ++ chr dquote ++ "hi" ++ chr dquote ++ ".txt")%string.

(** [n] backslashes. *)
Fixpoint backslashes (n : nat) : string :=
  match n with
  | O => EmptyString
  | S k => String backslash (backslashes k)
  end.

(** * Properties *)

(** ** The builder as a concatenation of segments *)

Lemma extend_if_app (cond : bool) (xs cmd : list string) :
  extend_if cond xs cmd = cmd ++ (if cond then xs else []).
Proof.
  unfold extend_if. destruct cond; [reflexivity | now rewrite app_nil_r].
Qed.

Lemma extend_each_app (flag : string) (dirs cmd : list string) :
  extend_each flag dirs cmd = cmd ++ flat_map (fun d => [flag; d]) dirs.
Proof.
  unfold extend_each. revert cmd.
  induction dirs as [| d dirs IH]; intros cmd; simpl.
  - now rewrite app_nil_r.
  - rewrite IH, <- app_assoc. reflexivity.
Qed.

(** What the chrome block appends. *)
Lemma chrome_step_app (v : string) (cmd : list string) :
  chrome_step v cmd =
  cmd ++ (if v =? "enabled" then ["--chrome"]
          else if v =? "disabled" then ["--no-chrome"] else []).
Proof.
  unfold chrome_step.
  destruct (v =? "enabled"); [reflexivity |].
  destruct (v =? "disabled"); [reflexivity | now rewrite app_nil_r].
Qed.

(** Rewrites [_build_command c] into a right-nested chain
    [[path] ++ seg1 ++ (seg2 ++ ...)], one segment per statement. *)
Ltac segments :=
  unfold _build_command; cbv zeta;
  rewrite ?extend_if_app, ?extend_each_app, ?chrome_step_app;
  rewrite <- ?app_assoc.

Lemma split_here {A} (a pre t l : list A) :
  l = pre ++ t -> a ++ l = (a ++ pre) ++ t.
Proof. intros ->. now rewrite app_assoc. Qed.

Lemma split_stop {A} (seg post : list A) : seg ++ post = [] ++ seg ++ post.
Proof. reflexivity. Qed.

Lemma truthy_true_iff (s : string) : truthy s = true <-> s <> EmptyString.
Proof. destruct s; simpl; split; congruence. Qed.

Lemma build_head_tail (c : Config) :
  exists rest,
    _build_command c = or_else (claude_path_var c) "claude" :: rest.
Proof. segments. eexists. reflexivity. Qed.

Lemma build_prompt_last (c : Config) :
  exists flags,
    _build_command c = flags ++ (if truthy (prompt_var c) then [prompt_var c] else [])
    /\ forall p, _build_command (set_prompt p c) = flags ++ (if truthy p then [p] else []).
Proof.
  unfold _build_command; cbv zeta.
  rewrite (extend_if_app (truthy (prompt_var c))).
  eexists. split; [reflexivity |].
  intros p. rewrite (extend_if_app (truthy (prompt_var (set_prompt p c)))).
  reflexivity.
Qed.

(** ** The prompt comes last *)

(** C1. If the prompt text is not empty it is the final token of the
    vector built, whatever the other fields are; and with an empty prompt
    no positional token is emitted: the vector is then exactly the one a
    non-empty prompt [p] would give, without its final token [p]. *)
Theorem prompt_is_last_token :
  (forall (c : Config) (d : string),
      prompt_var c <> EmptyString ->
      last (_build_command c) d = prompt_var c)
  /\ (forall (c : Config),
         prompt_var c = EmptyString ->
         forall p, p <> EmptyString ->
                   _build_command (set_prompt p c) = _build_command c ++ [p]).
Proof.
  split.
  - intros c d Hp.
    destruct (build_prompt_last c) as [flags [Hc _]].
    rewrite Hc. apply truthy_true_iff in Hp. rewrite Hp.
    apply last_last.
  - intros c Hc p Hp.
    destruct (build_prompt_last c) as [flags [Hb Hs]].
    rewrite Hs, Hb, Hc. simpl.
    apply truthy_true_iff in Hp. rewrite Hp.
    now rewrite app_nil_r.
Qed.

Lemma prompt_is_last_token_witness :
  last (_build_command (base_config "claude" "opus" "fix the bug")) EmptyString
  = "fix the bug"
  /\ _build_command (set_prompt "hi" (base_config "claude" "opus" EmptyString))
     = _build_command (base_config "claude" "opus" EmptyString) ++ ["hi"].
Proof.
  split.
  - apply (proj1 prompt_is_last_token
             (base_config "claude" "opus" "fix the bug") EmptyString).
    simpl. discriminate.
  - apply (proj2 prompt_is_last_token
             (base_config "claude" "opus" EmptyString)).
    + reflexivity.
    + discriminate.
Defined.

(** ** Scenario A *)

(** C3. With only the model ("opus") and the prompt ("hello") set, the
    executable path "claude" and every other field empty or at its
    default, the vector is exactly claude --model opus hello. *)
Theorem scenario_A :
  _build_command (base_config "claude" "opus" "hello")
  = ["claude"; "--model"; "opus"; "hello"].
Proof. reflexivity. Qed.

(** ** The program name *)

(** C9. With an empty executable-path field the first token is the
    literal "claude"; and the first token of the vector is never the
    empty string. *)
Theorem first_token_defaults_to_claude :
  (forall c : Config,
      claude_path_var c = EmptyString ->
      hd_error (_build_command c) = Some "claude")
  /\ (forall c : Config,
         exists t rest, _build_command c = t :: rest /\ t <> EmptyString).
Proof.
  split.
  - intros c Hc. destruct (build_head_tail c) as [rest ->].
    rewrite Hc. reflexivity.
  - intros c. destruct (build_head_tail c) as [rest ->].
    exists (or_else (claude_path_var c) "claude"), rest.
    split; [reflexivity |].
    unfold or_else. destruct (claude_path_var c); simpl; discriminate.
Qed.

Lemma first_token_defaults_to_claude_witness :
  hd_error (_build_command (base_config EmptyString "opus" "hello"))
  = Some "claude".
Proof.
  apply (proj1 first_token_defaults_to_claude
           (base_config EmptyString "opus" "hello")).
  reflexivity.
Defined.

(** ** Enumerations and their defaults *)

(** Reduces the projections of an updated configuration. *)
Ltac fields :=
  unfold setting_sources;
  cbn [set_prompt set_tools_text set_input_format set_output_format
       set_permission_mode set_chrome
       claude_path_var working_dir_var prompt_var model_var
       fallback_model_var continue_var resume_var fork_session_var
       session_id_var agent_var agents_json_text tools_text
       allowed_tools_var disallowed_tools_var disable_slash_commands_var
       system_prompt_text append_prompt_text print_mode_var
       input_format_var output_format_var json_schema_text
       include_partial_var replay_user_var mcp_config_var strict_mcp_var
       plugin_dirs permission_mode_var allow_skip_perms_var skip_perms_var
       add_dirs file_specs_var max_budget_var debug_var debug_file_var
       verbose_var chrome_var ide_var settings_var setting_user_var
       setting_project_var setting_local_var betas_var
       no_session_persistence_var].

(** Splits a chain of segments at the segment [seg]. *)
Ltac split_at seg :=
  lazymatch goal with
  | |- seg ++ _ = _ => apply (split_stop seg)
  | |- _ ++ _ = _ => apply split_here; split_at seg
  end.

Lemma input_format_segment (c : Config) :
  exists pre post, forall v,
    _build_command (set_input_format v c)
    = pre ++ (if negb (v =? "text") then ["--input-format"; v] else []) ++ post.
Proof.
  do 2 eexists. intros v.
  etransitivity; [segments; fields; reflexivity |].
  split_at (if negb (v =? "text") then ["--input-format"; v] else []).
Qed.

Lemma output_format_segment (c : Config) :
  exists pre post, forall v,
    _build_command (set_output_format v c)
    = pre ++ (if negb (v =? "text") then ["--output-format"; v] else []) ++ post.
Proof.
  do 2 eexists. intros v.
  etransitivity; [segments; fields; reflexivity |].
  split_at (if negb (v =? "text") then ["--output-format"; v] else []).
Qed.

Lemma permission_mode_segment (c : Config) :
  exists pre post, forall v,
    _build_command (set_permission_mode v c)
    = pre ++ (if negb (v =? "default") then ["--permission-mode"; v] else [])
          ++ post.
Proof.
  do 2 eexists. intros v.
  etransitivity; [segments; fields; reflexivity |].
  split_at (if negb (v =? "default") then ["--permission-mode"; v] else []).
Qed.

Lemma chrome_segment (c : Config) :
  exists pre post, forall v,
    _build_command (set_chrome v c)
    = pre ++ (if v =? "enabled" then ["--chrome"]
              else if v =? "disabled" then ["--no-chrome"] else [])
          ++ post.
Proof.
  do 2 eexists. intros v.
  etransitivity; [segments; fields; reflexivity |].
  split_at (if v =? "enabled" then ["--chrome"]
            else if v =? "disabled" then ["--no-chrome"] else []).
Qed.

Lemma tools_segment (c : Config) :
  exists pre post, forall t,
    _build_command (set_tools_text t c)
    = pre ++ (if truthy (strip t) then ["--tools"; strip t] else []) ++ post.
Proof.
  do 2 eexists. intros t.
  etransitivity; [segments; fields; reflexivity |].
  split_at (if truthy (strip t) then ["--tools"; strip t] else []).
Qed.

(** C2. For each of input-format, output-format, permission-mode and
    chrome-integration there are a prefix and a suffix of the vector that
    do not depend on the field: with the field at its default ("text",
    "text", "default", "default") the vector is prefix and suffix and
    nothing else; with any other value [v] exactly one flag is inserted
    between them, followed by [v] for the three flags that take a value
    (--input-format, --output-format, --permission-mode), and alone for
    the chrome flags (--chrome for "enabled", --no-chrome for
    "disabled"). *)
Theorem default_omission (c : Config) :
  (exists pre post,
      _build_command (set_input_format "text" c) = pre ++ post
      /\ forall v, v <> "text" ->
           _build_command (set_input_format v c)
           = pre ++ ["--input-format"; v] ++ post)
  /\ (exists pre post,
         _build_command (set_output_format "text" c) = pre ++ post
         /\ forall v, v <> "text" ->
              _build_command (set_output_format v c)
              = pre ++ ["--output-format"; v] ++ post)
  /\ (exists pre post,
         _build_command (set_permission_mode "default" c) = pre ++ post
         /\ forall v, v <> "default" ->
              _build_command (set_permission_mode v c)
              = pre ++ ["--permission-mode"; v] ++ post)
  /\ (exists pre post,
         _build_command (set_chrome "default" c) = pre ++ post
         /\ _build_command (set_chrome "enabled" c) = pre ++ ["--chrome"] ++ post
         /\ _build_command (set_chrome "disabled" c)
            = pre ++ ["--no-chrome"] ++ post).
Proof.
  repeat split.
  - destruct (input_format_segment c) as [pre [post H]].
    exists pre, post. split; [apply H |].
    intros v Hv. rewrite H. apply String.eqb_neq in Hv. now rewrite Hv.
  - destruct (output_format_segment c) as [pre [post H]].
    exists pre, post. split; [apply H |].
    intros v Hv. rewrite H. apply String.eqb_neq in Hv. now rewrite Hv.
  - destruct (permission_mode_segment c) as [pre [post H]].
    exists pre, post. split; [apply H |].
    intros v Hv. rewrite H. apply String.eqb_neq in Hv. now rewrite Hv.
  - destruct (chrome_segment c) as [pre [post H]].
    exists pre, post. repeat split; apply H.
Qed.

Lemma default_omission_witness :
  exists pre post,
    _build_command
      (set_input_format "text" (base_config "claude" "opus" "hello"))
    = pre ++ post
    /\ _build_command
         (set_input_format "stream-json" (base_config "claude" "opus" "hello"))
       = pre ++ ["--input-format"; "stream-json"] ++ post.
Proof.
  destruct (default_omission (base_config "claude" "opus" "hello"))
    as [[pre [post [H0 H1]]] _].
  exists pre, post. split; [exact H0 |].
  apply H1. discriminate.
Defined.

(** ** The tools field *)

(** C5. The explicit empty marker of the Tools field (two double-quote
    characters, as the Tools tab documents) is not collapsed to an omitted
    flag: with a blank Tools field the vector has no --tools pair at the
    place where, with the marker, it has --tools followed by the marker
    itself; the two vectors differ. *)
Theorem tools_marker_not_collapsed (c : Config) (blank : string) :
  strip blank = EmptyString ->
  (exists pre post,
      _build_command (set_tools_text blank c) = pre ++ post
      /\ _build_command (set_tools_text empty_tools_marker c)
         = pre ++ ["--tools"; empty_tools_marker] ++ post)
  /\ _build_command (set_tools_text empty_tools_marker c)
     <> _build_command (set_tools_text blank c).
Proof.
  intros Hb.
  destruct (tools_segment c) as [pre [post H]].
  assert (H0 : _build_command (set_tools_text blank c) = pre ++ post).
  { rewrite H, Hb. reflexivity. }
  assert (H1 : _build_command (set_tools_text empty_tools_marker c)
               = pre ++ ["--tools"; empty_tools_marker] ++ post).
  { rewrite H. reflexivity. }
  split.
  - exists pre, post. split; assumption.
  - rewrite H0, H1. intros E.
    apply (f_equal (@length string)) in E.
    rewrite !length_app in E. simpl in E. lia.
Qed.

Lemma tools_marker_not_collapsed_witness :
  _build_command
    (set_tools_text empty_tools_marker (base_config "claude" "opus" "hello"))
  <> _build_command
       (set_tools_text (chr newline) (base_config "claude" "opus" "hello")).
Proof.
  apply (tools_marker_not_collapsed (base_config "claude" "opus" "hello")
           (chr newline)).
  reflexivity.
Defined.

(** ** Quoting for display *)

Lemma append_chr_l (w : string) (c : ascii) (r : string) :
  ((w ++ chr c) ++ r)%string = (w ++ String c r)%string.
Proof. induction w as [| d w IH]; simpl; [reflexivity | now rewrite IH]. Qed.

Lemma append_empty_r (w : string) : (w ++ EmptyString)%string = w.
Proof. induction w as [| d w IH]; simpl; [reflexivity | now rewrite IH]. Qed.

Lemma append_assoc' (a b c : string) :
  ((a ++ b) ++ c)%string = (a ++ (b ++ c))%string.
Proof. induction a as [| d a IH]; simpl; [reflexivity | now rewrite IH]. Qed.

(** A safe character is an ordinary character of the shell. *)
Lemma safe_char_is_plain (c : ascii) :
  is_safe_char c = true ->
  PosixShell.is_blank c = false /\ Ascii.eqb c squote = false
  /\ Ascii.eqb c dquote = false /\ Ascii.eqb c backslash = false
  /\ PosixShell.is_active c = false.
Proof.
  destruct c as [[] [] [] [] [] [] [] []]; vm_compute; intros H;
    first [discriminate H | repeat split].
Qed.

Lemma words_plain_safe (s w : string) :
  all_safe s = true ->
  PosixShell.words PosixShell.Plain (Some w) s = Some [(w ++ s)%string].
Proof.
  revert w. induction s as [| c s IH]; intros w Hs.
  - simpl. now rewrite append_empty_r.
  - simpl in Hs. apply andb_true_iff in Hs. destruct Hs as [Hc Hs].
    destruct (safe_char_is_plain c Hc) as (Hb & Hq & Hd & Hbs & Ha).
    cbn [PosixShell.words]. rewrite Hb, Hq, Hd, Hbs, Ha.
    unfold Words.push. rewrite IH by assumption. now rewrite append_chr_l.
Qed.

(** Reading the five characters put for a single quote, inside a
    single-quoted run, adds one single quote and stays in the run. *)
Lemma words_squote_escape (w r : string) :
  PosixShell.words PosixShell.Single (Some w) (squote_escape ++ r)%string
  = PosixShell.words PosixShell.Single (Some (w ++ chr squote)%string) r.
Proof. reflexivity. Qed.

Lemma words_single_escaped (s w rest : string) :
  PosixShell.words PosixShell.Single (Some w)
    (replace squote squote_escape s ++ rest)%string
  = PosixShell.words PosixShell.Single (Some (w ++ s)%string) rest.
Proof.
  revert w. induction s as [| c s IH]; intros w.
  - simpl. now rewrite append_empty_r.
  - cbn [replace].
    rewrite append_assoc'.
    destruct (Ascii.eqb squote c) eqn:E.
    + apply Ascii.eqb_eq in E. subst c.
      rewrite words_squote_escape, IH. now rewrite append_chr_l.
    + cbn [chr append PosixShell.words].
      rewrite Ascii.eqb_sym, E.
      unfold Words.push. rewrite IH. now rewrite append_chr_l.
Qed.

(** On POSIX the quoted token reads back as the token, for every token. *)
Lemma shlex_quote_round_trip (t : string) :
  PosixShell.parse (shlex_quote t) = Some [t].
Proof.
  unfold PosixShell.parse, shlex_quote.
  destruct t as [| c t]; [reflexivity |].
  cbn [truthy negb].
  destruct (all_safe (String c t)) eqn:Hs.
  - pose proof Hs as Hs'. simpl in Hs'.
    apply andb_true_iff in Hs'. destruct Hs' as [Hc Ht].
    destruct (safe_char_is_plain c Hc) as (Hb & Hq & Hd & Hbs & Ha).
    cbn [PosixShell.words]. rewrite Hb, Hq, Hd, Hbs, Ha.
    unfold Words.push. now rewrite words_plain_safe.
  - cbn [chr append PosixShell.words].
    replace (Ascii.eqb squote squote) with true by reflexivity.
    change (PosixShell.is_blank squote) with false. cbv iota.
    unfold Words.start.
    rewrite words_single_escaped.
    cbn. reflexivity.
Qed.

Lemma quote_arg_posix_round_trip (platform t : string) :
  platform <> "win32" ->
  PosixShell.parse (_quote_arg platform t) = Some [t].
Proof.
  intros Hp. apply String.eqb_neq in Hp.
  unfold _quote_arg. rewrite Hp.
  destruct t as [| c t]; [reflexivity |].
  cbn [truthy negb]. apply shlex_quote_round_trip.
Qed.

(** On Windows the quoted token reads back as the token when it holds no
    backslash. *)
Lemma win_args_plain (s w : string) :
  contains backslash s = false -> contains dquote s = false ->
  contains " " s = false -> contains tab s = false ->
  WinArgv.args false 0 (Some w) s = [(w ++ s)%string].
Proof.
  revert w. induction s as [| c s IH]; intros w Hb Hq Hs Ht.
  - simpl. now rewrite append_empty_r.
  - cbn [contains] in Hb, Hq, Hs, Ht.
    apply orb_false_iff in Hb, Hq, Hs, Ht.
    destruct Hb as [Hb Hb'], Hq as [Hq Hq'], Hs as [Hs Hs'], Ht as [Ht Ht'].
    cbn [WinArgv.args].
    rewrite (Ascii.eqb_sym c backslash), Hb, (Ascii.eqb_sym c dquote), Hq,
      (Ascii.eqb_sym c " "), Hs, (Ascii.eqb_sym c tab), Ht.
    cbn [orb andb Words.push_n]. unfold Words.push.
    rewrite IH by assumption. now rewrite append_chr_l.
Qed.

Lemma win_args_quoted (s w : string) :
  contains backslash s = false ->
  WinArgv.args true 0 (Some w)
    (replace dquote (String backslash (chr dquote)) s ++ chr dquote)%string
  = [(w ++ s)%string].
Proof.
  revert w. induction s as [| c s IH]; intros w Hb.
  - simpl. now rewrite append_empty_r.
  - cbn [contains] in Hb. apply orb_false_iff in Hb. destruct Hb as [Hb Hb'].
    cbn [replace]. rewrite append_assoc'.
    destruct (Ascii.eqb dquote c) eqn:E.
    + apply Ascii.eqb_eq in E. subst c.
      change (WinArgv.args true 0 (Some (w ++ chr dquote)%string)
                (replace dquote (String backslash (chr dquote)) s
                 ++ chr dquote)%string
              = [(w ++ String dquote s)%string]).
      rewrite IH by assumption. now rewrite append_chr_l.
    + cbn [chr append WinArgv.args].
      rewrite (Ascii.eqb_sym c backslash), Hb, (Ascii.eqb_sym c dquote), E.
      cbn [negb andb Words.push_n]. rewrite andb_false_r.
      unfold Words.push. rewrite IH by assumption. now rewrite append_chr_l.
Qed.

Lemma win_open_quote (r : string) :
  WinArgv.args false 0 None (String dquote r)
  = WinArgv.args true 0 (Some EmptyString) r.
Proof. destruct r; reflexivity. Qed.

Lemma win_quote_round_trip_without_backslash (t : string) :
  contains backslash t = false ->
  WinArgv.parse (_quote_arg "win32" t) = [t].
Proof.
  intros Hb. unfold WinArgv.parse, _quote_arg.
  destruct t as [| c t]; [reflexivity |].
  cbn [truthy negb]. change ("win32" =? "win32") with true. cbv iota.
  destruct (contains " " (String c t) || contains dquote (String c t)
            || contains tab (String c t) || contains newline (String c t)
            || has_cmd_metachar (String c t)) eqn:E.
  - cbv zeta.
    change (chr dquote ++ ?x)%string with (String dquote x).
    rewrite win_open_quote.
    now rewrite (win_args_quoted (String c t) EmptyString Hb).
  - apply orb_false_iff in E. destruct E as [E _].
    apply orb_false_iff in E. destruct E as [E _].
    apply orb_false_iff in E. destruct E as [E Ht].
    apply orb_false_iff in E. destruct E as [Hs Hq].
    pose proof Hb as Hb0. pose proof Hq as Hq0.
    pose proof Hs as Hs0. pose proof Ht as Ht0.
    cbn [contains] in Hb0, Hq0, Hs0, Ht0.
    apply orb_false_iff in Hb0, Hq0, Hs0, Ht0.
    destruct Hb0 as [Hb1 Hb2], Hq0 as [Hq1 Hq2], Hs0 as [Hs1 Hs2],
      Ht0 as [Ht1 Ht2].
    cbn [WinArgv.args].
    rewrite (Ascii.eqb_sym c backslash), Hb1, (Ascii.eqb_sym c dquote), Hq1,
      (Ascii.eqb_sym c " "), Hs1, (Ascii.eqb_sym c tab), Ht1.
    cbn [orb andb Words.push_n]. unfold Words.push.
    now rewrite win_args_plain by assumption.
Qed.

(** C4. The round trip fails on Windows: the token made of [a b] and a
    final backslash is rendered with the backslash right before the
    closing quote, which the Windows argument rules read as an escaped
    quote; the token read back ends in a double quote, not in a
    backslash.  (On POSIX the round trip holds for every token, see
    [quote_arg_posix_round_trip]; on Windows it holds for tokens without
    a backslash, see [win_quote_round_trip_without_backslash].) *)
Theorem quote_round_trip_fails_on_windows :
  let t := ("a b" ++ chr backslash)%string in
  _quote_arg "win32" t
  = (chr dquote ++ "a b" ++ chr backslash ++ chr dquote)%string
  /\ WinArgv.parse (_quote_arg "win32" t) = [("a b" ++ chr dquote)%string]
  /\ WinArgv.parse (_quote_arg "win32" t) <> [t].
Proof.
  cbv zeta. split; [reflexivity |]. split; [reflexivity |].
  vm_compute. discriminate.
Qed.

(** ** The launcher *)

Lemma bind_ok {A B} (m : M A) (k : A -> M B) (w w' : World) (a : A) :
  m w = (Ok a, w') -> bind m k w = k a w'.
Proof. unfold bind. now intros ->. Qed.

Lemma path_present_without (p : string) (fs : list (string * string))
  (fds : list (nat * string)) ps ds cs :
  path_present p (mkWorld (without_path p fs) fds ps ds cs) = false.
Proof.
  unfold path_present, without_path. simpl.
  induction fs as [| f fs IH]; simpl; [reflexivity |].
  destruct (fst f =? p) eqn:E; simpl; [assumption |].
  now rewrite E.
Qed.

Lemma path_present_last (p data : string) fs fds ps ds cs :
  path_present p (mkWorld (fs ++ [(p, data)]) fds ps ds cs) = true.
Proof.
  unfold path_present. simpl. rewrite existsb_app. simpl.
  rewrite String.eqb_refl. apply orb_true_iff. right. reflexivity.
Qed.

Lemma fd_path_fresh (fd : nat) (p : string) fs fds ps ds cs :
  fd_path fd (mkWorld fs fds ps ds cs) = None ->
  forall fs' ps' ds' cs',
    fd_path fd (mkWorld fs' (fds ++ [(fd, p)]) ps' ds' cs') = Some p.
Proof.
  unfold fd_path. simpl. intros H fs' ps' ds' cs'.
  induction fds as [| d fds IH]; simpl in *.
  - now rewrite Nat.eqb_refl.
  - destruct (Nat.eqb (fst d) fd); [discriminate H | auto].
Qed.

Lemma fd_path_closed (fd : nat) fs fds ps ds cs :
  fd_path fd (mkWorld fs fds ps ds cs) = None ->
  forall fs' ps' ds' cs', fd_path fd (mkWorld fs' fds ps' ds' cs') = None.
Proof. intros H fs' ps' ds' cs'. exact H. Qed.

Lemma without_fd_fresh (fd : nat) (p : string) fs fds ps ds cs :
  fd_path fd (mkWorld fs fds ps ds cs) = None ->
  without_fd fd (fds ++ [(fd, p)]) = fds.
Proof.
  unfold fd_path, without_fd. simpl. intros H.
  induction fds as [| d fds IH]; simpl in *.
  - now rewrite Nat.eqb_refl.
  - destruct (Nat.eqb (fst d) fd); [discriminate H |].
    simpl. f_equal. auto.
Qed.

(** C6. When the working directory is not an existing directory, the
    launcher reports that (the WorkingDirectoryInvalid condition: the one
    "Working directory does not exist" error box) and does nothing else:
    no system call at all is made, so no temporary script is created, and
    no process is started. *)
Theorem invalid_working_dir_fails_fast (h : Host) (c : Config) (w : World) :
  isdir h (working_dir_of h c) = false ->
  _launch_claude h c w
  = (Ok tt,
     mkWorld (files w) (open_fds w) (procs w)
             (dialogs w ++ [invalid_dir_error (working_dir_of h c)])
             (calls w)).
Proof.
  intros H. unfold _launch_claude. cbv zeta. rewrite H. reflexivity.
Qed.

Lemma invalid_working_dir_fails_fast_witness :
  _launch_claude headless_host lost_dir_config empty_world
  = (Ok tt, mkWorld [] [] [] [invalid_dir_error "/no/such/dir"] []).
Proof.
  apply (invalid_working_dir_fails_fast headless_host lost_dir_config
           empty_world).
  reflexivity.
Defined.

(** *** Probing *)

(** When every candidate fails, the loop falls through; it leaves nothing
    but the [Popen] attempts in the log of calls. *)
Lemma probing_fails (h : Host) (ls : list (list string)) (w : World) :
  Forall (candidate_fails h) ls ->
  try_launchers h ls w
  = (Ok false,
     mkWorld (files w) (open_fds w) (procs w) (dialogs w)
             (calls w ++ attempts h ls)).
Proof.
  intros H. revert w.
  induction H as [| argv ls Hargv Hls IH]; intros w.
  - destruct w. simpl. unfold ret. now rewrite app_nil_r.
  - cbn [try_launchers attempts flat_map].
    unfold bind at 1, try_except.
    destruct (resolves h argv) eqn:Hr.
    + destruct Hargv as [Hf | [e [He Hos]]]; [congruence |].
      unfold Popen, bind, log, fail_if. cbn [p_argv]. rewrite He.
      unfold raise, dispatch. rewrite Hos. unfold ret.
      rewrite IH. cbn [files open_fds procs dialogs calls].
      now rewrite <- app_assoc.
    + unfold ret. rewrite IH. reflexivity.
Qed.

Lemma Popen_ok (h : Host) (p : Proc) fs fds ps ds cs :
  popen_error h (p_argv p) = None ->
  Popen h p (mkWorld fs fds ps ds cs)
  = (Ok tt, mkWorld fs fds (ps ++ [p]) ds (cs ++ [call_Popen p])).
Proof.
  intros H. unfold Popen, bind, log, fail_if. rewrite H. reflexivity.
Qed.

Lemma Popen_raises (h : Host) (p : Proc) (e : exn) fs fds ps ds cs :
  popen_error h (p_argv p) = Some e ->
  Popen h p (mkWorld fs fds ps ds cs)
  = (Raise e, mkWorld fs fds ps ds (cs ++ [call_Popen p])).
Proof.
  intros H. unfold Popen, bind, log, fail_if. rewrite H. reflexivity.
Qed.

(** [try: os.remove(script_path)  except OSError: pass] on a world whose
    last file is the script. *)
Lemma remove_staged_script (h : Host) (script_path content : string)
  fs fds ps ds cs :
  remove_error h = None ->
  try_except (os_remove h script_path) [pass_OSError]
    (mkWorld (fs ++ [(script_path, content)]) fds ps ds cs)
  = (Ok tt,
     mkWorld (without_path script_path (fs ++ [(script_path, content)]))
             fds ps ds (cs ++ [call_remove script_path])).
Proof.
  intros Hr. unfold try_except, os_remove, bind, log, fail_if.
  cbn [files open_fds procs dialogs calls].
  rewrite path_present_last, Hr. reflexivity.
Qed.

(** *** The fallback: no terminal found *)

Section NoTerminal.

Variable h : Host.
Variable w : World.
Variable fd : nat.
Variable script_path : string.
Variable cmd : list string.
Variable working_dir : string.

Hypothesis staging : staging_succeeds h w fd script_path.
Hypothesis probing : no_terminal h script_path.
Hypothesis removal : remove_error h = None.

Lemma staging_runs :
  exists w1,
    mkstemp h w = (Ok (fd, script_path), w1)
    /\ stage_script h fd script_path cmd working_dir w1
       = (Ok tt,
          staged w fd script_path
            (script_content cmd working_dir script_path)).
Proof.
  destruct staging as (Hmk & Hfd & Hw & Hc & Hch).
  clear staging probing removal.
  destruct w as [fs fds ps ds cs].
  eexists. split.
  - unfold mkstemp, bind, log. rewrite Hmk.
    cbn [files open_fds procs dialogs calls]. reflexivity.
  - unfold stage_script, try_except, os_write, os_close, os_chmod,
      bind, log, fail_if.
    rewrite Hw, Hc, Hch. cbn [fst snd files open_fds procs dialogs calls].
    rewrite (fd_path_fresh fd script_path fs fds ps ds cs Hfd).
    rewrite (fd_path_fresh fd script_path fs fds ps ds cs Hfd).
    cbn [fst snd files open_fds procs dialogs calls].
    rewrite (without_fd_fresh fd script_path fs fds ps ds cs Hfd).
    unfold staged, staging_calls, ret.
    cbn [files open_fds procs dialogs calls].
    rewrite <- !app_assoc. reflexivity.
Qed.

(** With the script staged and every candidate failing, the launcher
    reaches the fallback: the direct spawn under [try ... finally], then
    the notice. *)
Lemma unix_reaches_fallback :
  _launch_claude_unix h cmd working_dir w
  = (try_finally
       (Popen h (direct_spawn cmd working_dir))
       (try_except (os_remove h script_path) [pass_OSError]) ;;
     messagebox background_notice)
      (mkWorld
         (files (staged w fd script_path
                   (script_content cmd working_dir script_path)))
         (open_fds w) (procs w) (dialogs w)
         (calls w
          ++ staging_calls fd script_path
               (script_content cmd working_dir script_path)
          ++ attempts h (launchers h script_path))).
Proof.
  destruct staging_runs as [w1 [Hmk Hstage]].
  unfold _launch_claude_unix.
  rewrite (bind_ok _ _ _ _ _ Hmk). cbv zeta. cbn [fst snd].
  rewrite (bind_ok _ _ _ _ _ Hstage).
  rewrite (bind_ok _ _ _ _ _ (probing_fails h _ _ probing)).
  unfold staged. cbn [files open_fds procs dialogs calls].
  rewrite <- app_assoc. reflexivity.
Qed.

(** The spawn succeeds: the command runs in the background, the script
    is removed, the notice is shown. *)
Lemma unix_background :
  popen_error h cmd = None ->
  exists w',
    _launch_claude_unix h cmd working_dir w = (Ok tt, w')
    /\ procs w' = procs w ++ [direct_spawn cmd working_dir]
    /\ path_present script_path w' = false
    /\ dialogs w' = dialogs w ++ [background_notice]
    /\ calls w' = calls w ++ fallback_calls h fd script_path cmd working_dir.
Proof.
  intros Hspawn.
  rewrite unix_reaches_fallback.
  unfold bind at 1, try_finally, staged.
  cbn [files open_fds procs dialogs calls].
  rewrite Popen_ok by exact Hspawn.
  rewrite remove_staged_script by exact removal.
  unfold messagebox. cbn [files open_fds procs dialogs calls].
  eexists. split; [reflexivity |].
  cbn [files open_fds procs dialogs calls].
  split; [reflexivity |].
  split; [apply path_present_without |].
  split; [reflexivity |].
  unfold fallback_calls. now rewrite <- !app_assoc.
Qed.

(** C10. In the fallback, when the direct spawn itself raises, the staged
    script is still removed, and before the exception reaches the caller:
    [_launch_claude_unix] ends by raising the exception of the spawn, in a
    world where [os.remove] was called on the script right after the
    spawn attempt and (the removal not being refused) the script is no
    longer on disk; no process was started and no notice shown. *)
Theorem failed_spawn_still_removes_script (e : exn) :
  popen_error h cmd = Some e ->
  exists w',
    _launch_claude_unix h cmd working_dir w = (Raise e, w')
    /\ path_present script_path w' = false
    /\ procs w' = procs w
    /\ dialogs w' = dialogs w
    /\ calls w' = calls w ++ fallback_calls h fd script_path cmd working_dir.
Proof.
  intros Hspawn.
  rewrite unix_reaches_fallback.
  unfold bind at 1, try_finally, staged.
  cbn [files open_fds procs dialogs calls].
  rewrite (Popen_raises h _ e) by exact Hspawn.
  rewrite remove_staged_script by exact removal.
  eexists. split; [reflexivity |].
  cbn [files open_fds procs dialogs calls].
  split; [apply path_present_without |].
  split; [reflexivity |].
  split; [reflexivity |].
  unfold fallback_calls. now rewrite <- !app_assoc.
Qed.

End NoTerminal.

(** C7. On a POSIX host where the working directory is valid, the script
    is staged, every terminal candidate fails to resolve or to start and
    the direct spawn does not fail: the launcher starts the raw command
    itself (in the working directory, in a new session, without a
    terminal), removes the staged script, whose path is no longer on disk
    afterwards (the removal not being refused), and shows the notice that
    no terminal was found to show output. *)
Theorem no_terminal_background_fallback (h : Host) (c : Config) (w : World)
  (fd : nat) (script_path : string) :
  platform h <> "win32" ->
  isdir h (working_dir_of h c) = true ->
  staging_succeeds h w fd script_path ->
  no_terminal h script_path ->
  popen_error h (_build_command c) = None ->
  remove_error h = None ->
  exists w',
    _launch_claude h c w = (Ok tt, w')
    /\ procs w'
       = procs w ++ [direct_spawn (_build_command c) (working_dir_of h c)]
    /\ path_present script_path w' = false
    /\ dialogs w' = dialogs w ++ [background_notice; launched_notice]
    /\ calls w'
       = calls w
         ++ fallback_calls h fd script_path (_build_command c)
              (working_dir_of h c).
Proof.
  intros Hp Hd Hst Hno Hspawn Hrm.
  apply String.eqb_neq in Hp.
  destruct (unix_background h w fd script_path (_build_command c)
              (working_dir_of h c) Hst Hno Hrm Hspawn)
    as [w1 (Hrun & Hprocs & Hgone & Hdialogs & Hcalls)].
  unfold _launch_claude. cbv zeta. rewrite Hd, Hp. cbn [negb].
  unfold try_except at 1. rewrite (bind_ok _ _ _ _ _ Hrun).
  destruct w1 as [fs1 fds1 ps1 ds1 cs1].
  cbn [files open_fds procs dialogs calls] in *.
  eexists. split; [reflexivity |].
  cbn [files open_fds procs dialogs calls]. subst.
  split; [reflexivity |].
  split; [exact Hgone |].
  split; [now rewrite <- app_assoc | reflexivity].
Qed.

Lemma no_terminal_background_fallback_witness :
  exists w',
    _launch_claude headless_host (base_config "claude" "opus" "hello")
      empty_world = (Ok tt, w')
    /\ procs w' = [direct_spawn ["claude"; "--model"; "opus"; "hello"]
                     "/home/user"]
    /\ path_present "/tmp/claude_gui_x.sh" w' = false
    /\ dialogs w' = [background_notice; launched_notice].
Proof.
  destruct (no_terminal_background_fallback headless_host
              (base_config "claude" "opus" "hello") empty_world
              3 "/tmp/claude_gui_x.sh")
    as [w' (H1 & H2 & H3 & H4 & _)].
  - discriminate.
  - reflexivity.
  - repeat split; reflexivity.
  - unfold no_terminal. repeat constructor; left; reflexivity.
  - reflexivity.
  - reflexivity.
  - exists w'. repeat split; assumption.
Defined.

Lemma failed_spawn_still_removes_script_witness :
  exists w',
    _launch_claude_unix bare_host ["claude"; "--model"; "opus"; "hello"]
      "/home/user" empty_world
    = (Raise (mkExn FileNotFoundError
                "[Errno 2] No such file or directory: 'claude'"), w')
    /\ path_present "/tmp/claude_gui_x.sh" w' = false.
Proof.
  destruct (failed_spawn_still_removes_script bare_host empty_world 3
              "/tmp/claude_gui_x.sh" ["claude"; "--model"; "opus"; "hello"]
              "/home/user")
    with (e := mkExn FileNotFoundError
                 "[Errno 2] No such file or directory: 'claude'")
    as [w' (H1 & H2 & _)].
  - repeat split; reflexivity.
  - unfold no_terminal. repeat constructor; left; reflexivity.
  - reflexivity.
  - reflexivity.
  - exists w'. split; assumption.
Defined.

(** *** Failures while staging *)

(** X22. A failing write: when [os.write] raises an [OSError], the
    handler closes the descriptor, removes the file and re-raises the
    same exception; nothing is left on disk and nothing was started. *)
Lemma write_failure_cleans_up (h : Host) (w : World) (fd : nat)
  (script_path : string) (cmd : list string) (working_dir : string)
  (e : exn) :
  mkstemp_result h = Ok (fd, script_path) ->
  fd_path fd w = None ->
  write_error h = Some e ->
  isinstance_OSError e = true ->
  close_error h = None ->
  remove_error h = None ->
  exists w',
    _launch_claude_unix h cmd working_dir w = (Raise e, w')
    /\ path_present script_path w' = false
    /\ calls w'
       = calls w
         ++ [call_mkstemp;
             call_write fd (script_content cmd working_dir script_path);
             call_close fd; call_remove script_path].
Proof.
  intros Hmk Hfd Hw He Hc Hr.
  destruct w as [fs fds ps ds cs].
  unfold _launch_claude_unix, mkstemp, stage_script, try_except, os_write,
    os_close, bind, log, fail_if.
  rewrite Hmk, Hw, Hc. cbn [fst snd files open_fds procs dialogs calls].
  rewrite (fd_path_fresh fd script_path fs fds ps ds cs Hfd).
  unfold raise, dispatch. rewrite He.
  cbn [fst snd files open_fds procs dialogs calls].
  rewrite (fd_path_fresh fd script_path fs fds ps ds cs Hfd).
  unfold ret. cbn [fst snd files open_fds procs dialogs calls].
  unfold os_remove, bind, log, fail_if.
  cbn [files open_fds procs dialogs calls].
  rewrite path_present_last, Hr. cbn [negb].
  eexists. split; [reflexivity |].
  split; [apply path_present_without |].
  cbn [calls]. now rewrite <- !app_assoc.
Qed.

(** On a full disk the launch leaves no file behind and reports the
    error of the write. *)
Example disk_full_launch :
  _launch_claude disk_full_host (base_config "claude" "opus" "hello")
    empty_world
  = (Ok tt,
     mkWorld [] [] []
       [launch_failed_error
          (mkExn OSError "[Errno 28] No space left on device")]
       [call_mkstemp;
        call_write 3
          (script_content ["claude"; "--model"; "opus"; "hello"]
             "/home/user" "/tmp/claude_gui_x.sh");
        call_close 3; call_remove "/tmp/claude_gui_x.sh"]).
Proof. reflexivity. Qed.


(** A failing permission change: the descriptor is already closed, so the
    handler's own [os.close] raises [EBADF], the removal is never reached
    and the script stays on disk. *)
Lemma chmod_failure_leaks_script (h : Host) (w : World) (fd : nat)
  (script_path : string) (cmd : list string) (working_dir : string)
  (e : exn) :
  mkstemp_result h = Ok (fd, script_path) ->
  fd_path fd w = None ->
  write_error h = None ->
  close_error h = None ->
  chmod_error h = Some e ->
  isinstance_OSError e = true ->
  exists w',
    _launch_claude_unix h cmd working_dir w = (Raise EBADF, w')
    /\ path_present script_path w' = true
    /\ calls w'
       = calls w
         ++ [call_mkstemp;
             call_write fd (script_content cmd working_dir script_path);
             call_close fd; call_chmod script_path S_IRWXU; call_close fd].
Proof.
  intros Hmk Hfd Hw Hc Hch He.
  destruct w as [fs fds ps ds cs].
  unfold _launch_claude_unix, mkstemp, stage_script, try_except, os_write,
    os_close, os_chmod, bind, log, fail_if.
  rewrite Hmk, Hw, Hc, Hch. cbn [fst snd files open_fds procs dialogs calls].
  rewrite (fd_path_fresh fd script_path fs fds ps ds cs Hfd).
  rewrite (fd_path_fresh fd script_path fs fds ps ds cs Hfd).
  unfold ret, raise, dispatch. rewrite He.
  cbn [fst snd files open_fds procs dialogs calls].
  rewrite (without_fd_fresh fd script_path fs fds ps ds cs Hfd).
  rewrite (fd_path_closed fd fs fds ps ds cs Hfd).
  eexists. split; [reflexivity |].
  split; [apply path_present_last |].
  cbn [calls]. now rewrite <- !app_assoc.
Qed.

(** C8. The staging does leak the script when the permission change
    fails.  On a host whose file system refuses [os.chmod], the launcher
    writes and closes the script, the [chmod] raises, the handler closes
    the descriptor a second time, which raises [EBADF]; [os.remove] is
    never called, the script stays on disk with its content, and the
    error box reports the bad descriptor. *)
Theorem staging_failure_leaks_script :
  let content := script_content ["claude"; "--model"; "opus"; "hello"]
                   "/home/user" "/tmp/claude_gui_x.sh" in
  _launch_claude chmod_refused_host (base_config "claude" "opus" "hello")
    empty_world
  = (Ok tt,
     mkWorld [("/tmp/claude_gui_x.sh", content)] [] []
             [launch_failed_error EBADF]
             [call_mkstemp; call_write 3 content; call_close 3;
              call_chmod "/tmp/claude_gui_x.sh" S_IRWXU; call_close 3]).
Proof. reflexivity. Qed.

(** * Further properties *)

(** ** More of the builder *)

Ltac fields2 :=
  unfold setting_sources;
  cbn [set_plugin_dirs set_add_dirs set_claude_path strip_texts init_vars reset_vars
       claude_path_var working_dir_var prompt_var model_var
       fallback_model_var continue_var resume_var fork_session_var
       session_id_var agent_var agents_json_text tools_text
       allowed_tools_var disallowed_tools_var disable_slash_commands_var
       system_prompt_text append_prompt_text print_mode_var
       input_format_var output_format_var json_schema_text
       include_partial_var replay_user_var mcp_config_var strict_mcp_var
       plugin_dirs permission_mode_var allow_skip_perms_var skip_perms_var
       add_dirs file_specs_var max_budget_var debug_var debug_file_var
       verbose_var chrome_var ide_var settings_var setting_user_var
       setting_project_var setting_local_var betas_var
       no_session_persistence_var].

(** The pairs a list of directories contributes under [flag]. *)
Lemma plugin_dirs_segment (c : Config) :
  exists pre post, forall dirs,
    _build_command (set_plugin_dirs dirs c)
    = pre ++ flat_map (fun d => ["--plugin-dir"; d]) dirs ++ post.
Proof.
  do 2 eexists. intros dirs.
  etransitivity; [segments; fields2; reflexivity |].
  split_at (flat_map (fun d : string => ["--plugin-dir"; d]) dirs).
Qed.

Lemma add_dirs_segment (c : Config) :
  exists pre post, forall dirs,
    _build_command (set_add_dirs dirs c)
    = pre ++ flat_map (fun d => ["--add-dir"; d]) dirs ++ post.
Proof.
  do 2 eexists. intros dirs.
  etransitivity; [segments; fields2; reflexivity |].
  split_at (flat_map (fun d : string => ["--add-dir"; d]) dirs).
Qed.

(** X1. Whatever the rest of the configuration, the plugin directories
    contribute one [--plugin-dir d] pair each, in the order of the list
    and without any deduplication, at one place of the vector; and the
    extra directories likewise with [--add-dir]. *)
Theorem directories_one_pair_each (c : Config) :
  (exists pre post, forall dirs,
      _build_command (set_plugin_dirs dirs c)
      = pre ++ flat_map (fun d => ["--plugin-dir"; d]) dirs ++ post)
  /\ (exists pre post, forall dirs,
         _build_command (set_add_dirs dirs c)
         = pre ++ flat_map (fun d => ["--add-dir"; d]) dirs ++ post).
Proof. split; [apply plugin_dirs_segment | apply add_dirs_segment]. Qed.

(** *** Whitespace around text blocks *)






(** *** No empty token *)

Lemma Forall_flat_map_pairs (flag : string) (dirs : list string) :
  flag <> EmptyString ->
  Forall (fun d => d <> EmptyString) dirs ->
  Forall (fun t => t <> EmptyString) (flat_map (fun d => [flag; d]) dirs).
Proof.
  intros Hf H. induction H as [| d dirs Hd Hdirs IH]; simpl.
  - constructor.
  - constructor; [exact Hf |]. constructor; assumption.
Qed.

Lemma sources_value_not_empty (u p l : bool) :
  (u || p || l) = true ->
  join ","
    ((if l then (if p then (if u then [] ++ ["user"] else []) ++ ["project"]
                 else if u then [] ++ ["user"] else []) ++ ["local"]
      else if p then (if u then [] ++ ["user"] else []) ++ ["project"]
           else if u then [] ++ ["user"] else []))
  <> EmptyString.
Proof. destruct u, p, l; simpl; intros H; discriminate. Qed.

(** Closes the goal that one segment of the chain has no empty token. *)
Ltac nonempty_segment :=
  lazymatch goal with
  | |- Forall _ (if truthy ?v then _ else _) =>
      let E := fresh "E" in
      destruct v eqn:E; cbn [truthy];
      repeat constructor; discriminate
  | |- Forall _ (if ?b then _ else _) =>
      destruct b; repeat constructor; discriminate
  | |- Forall _ _ => repeat constructor; discriminate
  end.

(** X3. The vector never holds an empty token, provided the three valued
    combo boxes are not empty and no directory entry is empty (the combo
    boxes offer no empty value and the Add buttons refuse an empty
    path). *)
Theorem no_empty_token (c : Config) :
  input_format_var c <> EmptyString ->
  output_format_var c <> EmptyString ->
  permission_mode_var c <> EmptyString ->
  Forall (fun d => d <> EmptyString) (plugin_dirs c) ->
  Forall (fun d => d <> EmptyString) (add_dirs c) ->
  Forall (fun t => t <> EmptyString) (_build_command c).
Proof.
  intros Hin Hout Hperm Hplug Hadd.
  segments.
  repeat (apply Forall_app; split).
  all: try (apply Forall_flat_map_pairs; [discriminate | assumption]).
  all: try solve [nonempty_segment].
  - unfold or_else. destruct (claude_path_var c); repeat constructor; discriminate.
  - destruct (negb (input_format_var c =? "text"));
      repeat constructor; [discriminate | assumption].
  - destruct (negb (output_format_var c =? "text"));
      repeat constructor; [discriminate | assumption].
  - destruct (negb (permission_mode_var c =? "default"));
      repeat constructor; [discriminate | assumption].
  - destruct (chrome_var c =? "enabled"); [repeat constructor; discriminate |].
    destruct (chrome_var c =? "disabled"); repeat constructor; discriminate.
  - unfold setting_sources.
    destruct (setting_user_var c), (setting_project_var c),
      (setting_local_var c); simpl; repeat constructor; discriminate.
Qed.

Lemma no_empty_token_witness :
  Forall (fun t => t <> EmptyString)
    (_build_command
       (set_plugin_dirs ["/opt/plugins"] (base_config "claude" "opus" "hi"))).
Proof.
  apply (no_empty_token
           (set_plugin_dirs ["/opt/plugins"] (base_config "claude" "opus" "hi")));
    simpl; try discriminate; repeat constructor; discriminate.
Defined.

(** *** Order of the flags *)

Lemma subseq_nil (l : list string) : subseq [] l.
Proof. destruct l; exact I. Qed.

Lemma subseq_skip (a l s : list string) : subseq s l -> subseq s (a ++ l).
Proof.
  intros H. induction a as [| x a IH]; [exact H |].
  destruct s as [| y s]; [exact I |].
  simpl. right. exact IH.
Qed.

Lemma subseq_cons (x : string) (s l : list string) :
  subseq s l -> subseq (x :: s) (x :: l).
Proof. intros H. simpl. left. split; [reflexivity | exact H]. Qed.

(** One step of a subsequence proof along a chain of segments: take the
    next token when the chain shows it, skip the segment otherwise. *)
Ltac in_order :=
  lazymatch goal with
  | |- subseq [] _ => apply subseq_nil
  | |- subseq (?x :: _) (?x :: _) => apply subseq_cons
  | |- subseq (?x :: _) ((?x :: ?a) ++ ?l) =>
      change ((x :: a) ++ l) with (x :: (a ++ l)); apply subseq_cons
  | |- subseq _ ([] ++ ?l) => change ([] ++ l) with l
  | |- subseq _ (_ ++ _) => apply subseq_skip
  end.

(** X4. The flags keep their canonical order whatever else is set: with
    continue checked, a resume token, print mode checked and an output
    format other than text, the tokens [-c], [-r], the token, [-p],
    [--output-format] and the format occur in the vector in this
    order. *)
Theorem session_and_print_flags_in_order (c : Config) :
  continue_var c = true ->
  resume_var c <> EmptyString ->
  print_mode_var c = true ->
  output_format_var c <> "text" ->
  subseq ["-c"; "-r"; resume_var c; "-p"; "--output-format";
          output_format_var c]
         (_build_command c).
Proof.
  intros Hc Hr Hp Ho.
  apply truthy_true_iff in Hr. apply String.eqb_neq in Ho.
  segments. rewrite Hc, Hr, Hp, Ho. cbn [negb].
  repeat in_order.
Qed.

Lemma session_and_print_flags_in_order_witness :
  subseq ["-c"; "-r"; "abc"; "-p"; "--output-format"; "json"]
    (_build_command scenario_B_config).
Proof.
  apply (session_and_print_flags_in_order scenario_B_config);
    simpl; try reflexivity; discriminate.
Defined.

(** ** The whole preview reads back *)

Lemma extend_empty (cur : option string) : extend cur EmptyString = cur.
Proof. reflexivity. Qed.

Lemma extend_push (c : ascii) (cur : option string) (s : string) :
  extend (Words.push c cur) s = extend cur (String c s).
Proof.
  unfold Words.push, extend.
  destruct cur as [w |], s as [| d s]; simpl;
    rewrite ?append_chr_l; reflexivity.
Qed.

Lemma extend_some (w s : string) : extend (Some w) s = Some (w ++ s)%string.
Proof. destruct s; simpl; [now rewrite append_empty_r | reflexivity]. Qed.

Lemma posix_plain_then (s k : string) (cur : option string) :
  all_safe s = true -> separated k ->
  PosixShell.words PosixShell.Plain cur (s ++ k)%string
  = option_map (Words.flush (extend cur s)) (posix_rest k).
Proof.
  intros Hs Hk. revert cur. induction s as [| c s IH]; intros cur.
  - cbn [append extend]. destruct Hk as [-> | [r ->]]; reflexivity.
  - simpl in Hs. apply andb_true_iff in Hs. destruct Hs as [Hc Hs].
    destruct (safe_char_is_plain c Hc) as (Hb & Hq & Hd & Hbs & Ha).
    cbn [append PosixShell.words]. rewrite Hb, Hq, Hd, Hbs, Ha.
    rewrite IH by assumption. now rewrite extend_push.
Qed.

Lemma posix_quoted_then (s w k : string) :
  separated k ->
  PosixShell.words PosixShell.Single (Some w)
    (replace squote squote_escape s ++ String squote k)%string
  = option_map (Words.flush (Some (w ++ s)%string)) (posix_rest k).
Proof.
  intros Hk. rewrite words_single_escaped.
  cbn [PosixShell.words].
  replace (Ascii.eqb squote squote) with true by reflexivity.
  exact (posix_plain_then EmptyString k (Some (w ++ s)%string) eq_refl Hk).
Qed.

Lemma posix_open_quote (x : string) :
  PosixShell.words PosixShell.Plain None (String squote x)
  = PosixShell.words PosixShell.Single (Some EmptyString) x.
Proof. reflexivity. Qed.

Lemma posix_token_then (t k : string) :
  separated k ->
  PosixShell.words PosixShell.Plain None (shlex_quote t ++ k)%string
  = option_map (cons t) (posix_rest k).
Proof.
  intros Hk. unfold shlex_quote.
  destruct t as [| c t].
  - cbn [truthy negb append chr].
    change (PosixShell.words PosixShell.Plain None
              (String squote (String squote k)))
      with (PosixShell.words PosixShell.Plain (Some EmptyString) k).
    exact (posix_plain_then EmptyString k (Some EmptyString) eq_refl Hk).
  - cbn [truthy negb].
    destruct (all_safe (String c t)) eqn:Hs.
    + now rewrite posix_plain_then.
    + rewrite !append_assoc'. cbn [chr append].
      rewrite posix_open_quote.
      now rewrite posix_quoted_then.
Qed.

Lemma separated_nil : separated EmptyString.
Proof. now left. Qed.

Lemma separated_space (r : string) : separated (String " " r).
Proof. right. now exists r. Qed.

Lemma posix_list_round_trip (l : list string) :
  l <> [] ->
  PosixShell.parse (join " " (map shlex_quote l)) = Some l.
Proof.
  unfold PosixShell.parse.
  induction l as [| t l IH]; [congruence |]. intros _.
  destruct l as [| u l].
  - cbn [map join].
    rewrite <- (append_empty_r (shlex_quote t)).
    now rewrite (posix_token_then t EmptyString separated_nil).
  - cbn [map join]. cbn [map join] in IH.
    change (" " ++ ?x)%string with (String " " x).
    rewrite posix_token_then by apply separated_space.
    cbn [posix_rest]. rewrite IH by discriminate. reflexivity.
Qed.

Lemma build_not_nil (c : Config) : _build_command c <> [].
Proof. destruct (build_head_tail c) as [rest ->]. discriminate. Qed.

Lemma quote_arg_posix (platform t : string) :
  platform <> "win32" -> _quote_arg platform t = shlex_quote t.
Proof.
  intros Hp. apply String.eqb_neq in Hp. unfold _quote_arg. rewrite Hp.
  destruct t; reflexivity.
Qed.

(** X5. On every platform but Windows the command preview, read by the
    shell's word splitting and quote removal, is exactly the argument
    vector: what [Copy Command] puts on the clipboard runs the same
    tokens as [Launch], whatever characters the fields hold. *)
Theorem preview_reads_back_on_posix (platform : string) (c : Config) :
  platform <> "win32" ->
  PosixShell.parse (_get_command_string platform c)
  = Some (_build_command c).
Proof.
  intros Hp. unfold _get_command_string.
  rewrite (map_ext _ shlex_quote (fun t => quote_arg_posix platform t Hp)).
  apply posix_list_round_trip, build_not_nil.
Qed.

Lemma preview_reads_back_on_posix_witness :
  PosixShell.parse
    (_get_command_string "linux" (base_config "claude" "opus" "it's $HOME"))
  = Some ["claude"; "--model"; "opus"; "it's $HOME"].
Proof.
  apply (preview_reads_back_on_posix "linux"
           (base_config "claude" "opus" "it's $HOME")).
  discriminate.
Defined.

(** *** On Windows *)

Lemma push_n_extend (n : nat) (cur : option string) :
  Words.push_n n backslash cur = extend cur (backslashes n).
Proof.
  revert cur. induction n as [| n IH]; intros cur; [reflexivity |].
  cbn [Words.push_n backslashes]. rewrite IH. apply extend_push.
Qed.

Lemma extend_extend (cur : option string) (a b : string) :
  extend (extend cur a) b = extend cur (a ++ b)%string.
Proof.
  destruct a as [| c a]; [reflexivity |].
  destruct b as [| d b].
  - cbn [extend]. now rewrite append_empty_r.
  - destruct cur as [w |]; cbn [extend append];
      rewrite ?append_assoc'; reflexivity.
Qed.

Lemma backslashes_snoc (n : nat) (s : string) :
  (backslashes n ++ String backslash s)%string
  = (backslashes (S n) ++ s)%string.
Proof.
  induction n as [| n IH]; [reflexivity |].
  cbn [backslashes append] in *. now rewrite IH.
Qed.

(** A run of ordinary characters and backslashes, outside quotes. *)
Lemma win_plain_then (s k : string) (n : nat) (cur : option string) :
  contains dquote s = false -> contains " " s = false ->
  contains tab s = false -> separated k ->
  WinArgv.args false n cur (s ++ k)%string
  = Words.flush (extend cur (backslashes n ++ s)%string) (win_rest k).
Proof.
  intros Hq Hs Ht Hk. revert n cur.
  induction s as [| c s IH]; intros n cur.
  - cbn [append]. rewrite append_empty_r, <- push_n_extend.
    destruct Hk as [-> | [r ->]]; reflexivity.
  - cbn [contains] in Hq, Hs, Ht.
    apply orb_false_iff in Hq, Hs, Ht.
    destruct Hq as [Hq Hq'], Hs as [Hs Hs'], Ht as [Ht Ht'].
    cbn [append WinArgv.args].
    destruct (Ascii.eqb c backslash) eqn:Hb.
    + apply Ascii.eqb_eq in Hb. subst c.
      rewrite IH by assumption. now rewrite backslashes_snoc.
    + rewrite (Ascii.eqb_sym c dquote), Hq, (Ascii.eqb_sym c " "), Hs,
        (Ascii.eqb_sym c tab), Ht.
      cbn [orb andb]. rewrite IH by assumption.
      cbn [backslashes append].
      rewrite extend_push, push_n_extend, extend_extend. reflexivity.
Qed.

(** The inside of a quoted rendering, up to and with the closing quote. *)
Lemma win_quoted_then (s w k : string) (n : nat) :
  no_backslash_before_quote (negb (Nat.eqb n 0)) s = true ->
  separated k ->
  WinArgv.args true n (Some w)
    (replace dquote (String backslash (chr dquote)) s ++ String dquote k)%string
  = Words.flush (Some (w ++ backslashes n ++ s)%string) (win_rest k).
Proof.
  intros Hok Hk. revert n w Hok.
  induction s as [| c s IH]; intros n w Hok.
  - cbn [no_backslash_before_quote] in Hok.
    apply negb_true_iff, negb_false_iff, Nat.eqb_eq in Hok. subst n.
    cbn [replace append backslashes]. rewrite append_empty_r.
    destruct Hk as [-> | [r ->]]; reflexivity.
  - cbn [no_backslash_before_quote] in Hok. cbn [replace].
    rewrite append_assoc'.
    destruct (Ascii.eqb c backslash) eqn:Hb.
    + apply Ascii.eqb_eq in Hb. subst c.
      change (Ascii.eqb dquote backslash) with false. cbv iota.
      cbn [chr append WinArgv.args].
      change (Ascii.eqb backslash backslash) with true. cbv iota.
      rewrite (IH (S n) w Hok). now rewrite backslashes_snoc.
    + destruct (Ascii.eqb c dquote) eqn:Hq.
      * apply Ascii.eqb_eq in Hq. subst c.
        apply andb_true_iff in Hok. destruct Hok as [Hn Hok].
        apply negb_true_iff, negb_false_iff, Nat.eqb_eq in Hn. subst n.
        change (Ascii.eqb dquote dquote) with true. cbv iota.
        change (WinArgv.args true 0 (Some (w ++ chr dquote)%string)
                  (replace dquote (String backslash (chr dquote)) s
                   ++ String dquote k)%string
                = Words.flush
                    (Some (w ++ backslashes 0 ++ String dquote s)%string)
                    (win_rest k)).
        rewrite (IH 0 (w ++ chr dquote)%string Hok).
        cbn [backslashes append]. now rewrite append_chr_l.
      * rewrite (Ascii.eqb_sym dquote c), Hq.
        cbn [chr append WinArgv.args]. rewrite Hb, Hq.
        rewrite andb_false_r.
        rewrite push_n_extend, extend_some. unfold Words.push.
        rewrite (IH 0 _ Hok). cbn [backslashes append].
        now rewrite append_chr_l, append_assoc'.
Qed.

Lemma needs_no_quotes (t : string) :
  needs_win_quotes t = false ->
  contains dquote t = false /\ contains " " t = false
  /\ contains tab t = false.
Proof.
  unfold needs_win_quotes. intros E.
  apply orb_false_iff in E. destruct E as [E _].
  apply orb_false_iff in E. destruct E as [E _].
  apply orb_false_iff in E. destruct E as [E Ht].
  apply orb_false_iff in E. destruct E as [Hs Hq].
  auto.
Qed.

Lemma win_token_then (t k : string) :
  win_readable t = true -> separated k ->
  WinArgv.args false 0 None (_quote_arg "win32" t ++ k)%string
  = t :: win_rest k.
Proof.
  intros Hok Hk. unfold _quote_arg, win_readable in *.
  destruct t as [| c t].
  - cbn [truthy negb]. change ("win32" =? "win32") with true. cbv iota.
    cbn [chr append]. rewrite win_open_quote.
    exact (win_quoted_then EmptyString EmptyString k 0 eq_refl Hk).
  - cbn [truthy negb]. change ("win32" =? "win32") with true. cbv iota.
    fold (needs_win_quotes (String c t)).
    destruct (needs_win_quotes (String c t)) eqn:E.
    + cbv zeta. rewrite !append_assoc'. cbn [chr append].
      rewrite win_open_quote.
      now rewrite (win_quoted_then (String c t) EmptyString k 0 Hok Hk).
    + destruct (needs_no_quotes _ E) as (Hq & Hs & Ht).
      now rewrite (win_plain_then (String c t) k 0 None Hq Hs Ht Hk).
Qed.

Lemma win_list_round_trip (l : list string) :
  forallb win_readable l = true ->
  WinArgv.parse (join " " (map (_quote_arg "win32") l)) = l.
Proof.
  unfold WinArgv.parse.
  induction l as [| t l IH]; [reflexivity |]. intros H.
  cbn [forallb] in H. apply andb_true_iff in H. destruct H as [Ht Hl].
  destruct l as [| u l].
  - cbn [map join].
    rewrite <- (append_empty_r (_quote_arg "win32" t)).
    now rewrite (win_token_then t EmptyString Ht separated_nil).
  - cbn [map join]. cbn [map join] in IH.
    change (" " ++ ?x)%string with (String " " x).
    rewrite win_token_then by (try assumption; apply separated_space).
    cbn [win_rest]. now rewrite IH.
Qed.

(** X6. On Windows the command preview, read by the argument rules of
    Windows programs, is exactly the argument vector whenever no token
    that needs quotes has a backslash right before a double quote or as
    its last character (backslashes anywhere else, as in paths, are
    fine). *)
Theorem preview_reads_back_on_windows (c : Config) :
  forallb win_readable (_build_command c) = true ->
  WinArgv.parse (_get_command_string "win32" c) = _build_command c.
Proof. intros H. unfold _get_command_string. now apply win_list_round_trip. Qed.

Lemma preview_reads_back_on_windows_witness :
  WinArgv.parse
    (_get_command_string "win32"
       (base_config "C:\Program Files\claude\claude.exe" "opus"
          "say hi & bye"))
  = ["C:\Program Files\claude\claude.exe"; "--model"; "opus";
     "say hi & bye"].
Proof.
  apply (preview_reads_back_on_windows
           (base_config "C:\Program Files\claude\claude.exe" "opus"
              "say hi & bye")).
  reflexivity.
Defined.

(** ** One token *)

(** X24. On every platform but Windows a single token reads back as
    itself from its rendering, whatever characters it holds: quotes,
    blanks, newlines, dollar signs, backslashes, or none at all. *)
Theorem token_reads_back_on_posix (platform t : string) :
  platform <> "win32" ->
  PosixShell.parse (_quote_arg platform t) = Some [t].
Proof.
  intros Hp. rewrite (quote_arg_posix platform t Hp).
  apply shlex_quote_round_trip.
Qed.

Lemma token_reads_back_on_posix_witness :
  PosixShell.parse (_quote_arg "darwin" "it's a test; rm -rf ~")
  = Some ["it's a test; rm -rf ~"].
Proof.
  apply (token_reads_back_on_posix "darwin" "it's a test; rm -rf ~").
  discriminate.
Defined.

(** X25. On Windows a single token reads back as itself from its
    rendering whenever it needs no quotes, or has no backslash right
    before a double quote or as its last character. *)
Theorem quote_arg_windows_round_trip (t : string) :
  win_readable t = true ->
  WinArgv.parse (_quote_arg "win32" t) = [t].
Proof.
  intros H. unfold WinArgv.parse.
  rewrite <- (append_empty_r (_quote_arg "win32" t)).
  now rewrite (win_token_then t EmptyString H separated_nil).
Qed.

Lemma quote_arg_windows_round_trip_witness :
  WinArgv.parse (_quote_arg "win32" windows_sample_token)
  = [windows_sample_token].
Proof.
  apply (quote_arg_windows_round_trip windows_sample_token).
  reflexivity.
Defined.

(** ** The staged script *)

(** X7. The three commands of the staged script are safe against any
    character in the paths and tokens: the script is the [#!/bin/sh]
    line, then [cd_line && cmd_line], then [rm_line], where the shell
    reads [cd_line] as [cd] and exactly the working directory, [cmd_line]
    as exactly the argument vector and [rm_line] as [rm -f] and exactly
    the script's own path. *)
Theorem script_runs_exactly_the_command (cmd : list string)
  (working_dir script_path : string) :
  cmd <> [] ->
  exists cd_line cmd_line rm_line,
    script_content cmd working_dir script_path
    = ("#!/bin/sh" ++ chr newline
       ++ cd_line ++ " && " ++ cmd_line ++ chr newline
       ++ rm_line ++ chr newline)%string
    /\ PosixShell.parse cd_line = Some ["cd"; working_dir]
    /\ PosixShell.parse cmd_line = Some cmd
    /\ PosixShell.parse rm_line = Some ["rm"; "-f"; script_path].
Proof.
  intros Hcmd.
  exists ("cd " ++ shlex_quote working_dir)%string,
    (join " " (map shlex_quote cmd)),
    ("rm -f " ++ shlex_quote script_path)%string.
  split.
  - unfold script_content. rewrite !append_assoc'. reflexivity.
  - split; [| split].
    + exact (posix_list_round_trip ["cd"; working_dir] ltac:(discriminate)).
    + exact (posix_list_round_trip cmd Hcmd).
    + exact (posix_list_round_trip ["rm"; "-f"; script_path]
               ltac:(discriminate)).
Qed.

Lemma script_runs_exactly_the_command_witness :
  exists cd_line cmd_line rm_line,
    script_content ["claude"; "fix the bug; then stop"] "/home/my user"
      "/tmp/claude_gui_x.sh"
    = ("#!/bin/sh" ++ chr newline
       ++ cd_line ++ " && " ++ cmd_line ++ chr newline
       ++ rm_line ++ chr newline)%string
    /\ PosixShell.parse cd_line = Some ["cd"; "/home/my user"]
    /\ PosixShell.parse cmd_line = Some ["claude"; "fix the bug; then stop"]
    /\ PosixShell.parse rm_line = Some ["rm"; "-f"; "/tmp/claude_gui_x.sh"].
Proof.
  apply (script_runs_exactly_the_command
           ["claude"; "fix the bug; then stop"] "/home/my user"
           "/tmp/claude_gui_x.sh").
  discriminate.
Defined.

(** ** More of the launcher *)

Lemma bind_raises {A B} (m : M A) (k : A -> M B) (w w' : World) (e : exn) :
  m w = (Raise e, w') -> bind m k w = (Raise e, w').
Proof. unfold bind. now intros ->. Qed.

(** *** Windows *)

(** X8. On Windows with a valid working directory a launch is one
    [Popen] of the raw command in the working directory with a new
    console and nothing else: no file is staged, no descriptor opened, no
    other system call made.  If the call succeeds the process runs and
    the "Launched" box is shown; if it raises, no process runs and the
    box is the not-found one for [FileNotFoundError] and the
    failed-to-launch one, with the exception's text, for anything
    else. *)
Theorem windows_launch_is_one_spawn (h : Host) (c : Config) (w : World) :
  platform h = "win32" ->
  isdir h (working_dir_of h c) = true ->
  let p := console_spawn (_build_command c) (working_dir_of h c) in
  _launch_claude h c w
  = (Ok tt,
     mkWorld (files w) (open_fds w)
       (match popen_error h (_build_command c) with
        | None => procs w ++ [p]
        | Some _ => procs w
        end)
       (dialogs w
        ++ [match popen_error h (_build_command c) with
            | None => launched_notice
            | Some e => error_box e
            end])
       (calls w ++ [call_Popen p])).
Proof.
  intros Hp Hd p. unfold _launch_claude. cbv zeta.
  rewrite Hd, Hp. cbn [negb]. change ("win32" =? "win32") with true. cbv iota.
  fold (console_spawn (_build_command c) (working_dir_of h c)). fold p.
  destruct w as [fs fds ps ds cs]. unfold try_except.
  cbn [files open_fds procs dialogs calls].
  destruct (popen_error h (_build_command c)) as [e |] eqn:E.
  - rewrite (bind_raises _ _ _ _ _ (Popen_raises h p e fs fds ps ds cs E)).
    unfold dispatch, error_box, messagebox.
    destruct (isinstance_FileNotFoundError e); reflexivity.
  - rewrite (bind_ok _ _ _ _ _ (Popen_ok h p fs fds ps ds cs E)).
    reflexivity.
Qed.

Lemma windows_launch_is_one_spawn_witness :
  _launch_claude windows_host
    (set_working_dir "C:\Users\me" (base_config "claude" "opus" "hello"))
    empty_world
  = (Ok tt,
     mkWorld [] []
       [console_spawn ["claude"; "--model"; "opus"; "hello"] "C:\Users\me"]
       [launched_notice]
       [call_Popen
          (console_spawn ["claude"; "--model"; "opus"; "hello"]
             "C:\Users\me")]).
Proof.
  apply (windows_launch_is_one_spawn windows_host
           (set_working_dir "C:\Users\me"
              (base_config "claude" "opus" "hello")) empty_world);
    reflexivity.
Defined.

(** *** The first terminal that starts wins *)

Lemma probing_succeeds (h : Host) (before after : list (list string))
  (argv : list string) (w : World) :
  Forall (candidate_fails h) before ->
  resolves h argv = true ->
  popen_error h argv = None ->
  try_launchers h (before ++ argv :: after) w
  = (Ok true,
     mkWorld (files w) (open_fds w)
             (procs w ++ [mkProc argv None true false]) (dialogs w)
             (calls w ++ attempts h before
              ++ [call_Popen (mkProc argv None true false)])).
Proof.
  intros Hb Hr Hp. revert w.
  induction Hb as [| x before Hx Hbefore IH]; intros w.
  - cbn [app try_launchers attempts flat_map].
    unfold bind at 1, try_except. rewrite Hr.
    unfold Popen, bind, log, fail_if. cbn [p_argv]. rewrite Hp.
    unfold ret. cbn [files open_fds procs dialogs calls]. reflexivity.
  - cbn [app try_launchers attempts flat_map].
    unfold bind at 1, try_except.
    destruct (resolves h x) eqn:Hrx.
    + destruct Hx as [Hf | [e [He Hos]]]; [congruence |].
      unfold Popen, bind, log, fail_if. cbn [p_argv]. rewrite He.
      unfold raise, dispatch. rewrite Hos. unfold ret.
      rewrite IH. cbn [files open_fds procs dialogs calls].
      now rewrite <- !app_assoc.
    + unfold ret. rewrite IH. reflexivity.
Qed.

(** X9. When the script is staged and, in the fixed order of the
    candidates, one resolves and starts after all those before it failed,
    that terminal is the one process of the launch: the candidates after
    it are not tried, the raw command is not spawned directly, the
    launcher does not remove the script (its last line does, once run),
    and only the "Launched" box is shown. *)
Theorem first_terminal_wins (h : Host) (c : Config) (w : World) (fd : nat)
  (script_path : string) (before after : list (list string))
  (argv : list string) :
  platform h <> "win32" ->
  isdir h (working_dir_of h c) = true ->
  staging_succeeds h w fd script_path ->
  launchers h script_path = before ++ argv :: after ->
  Forall (candidate_fails h) before ->
  resolves h argv = true ->
  popen_error h argv = None ->
  let content := script_content (_build_command c) (working_dir_of h c)
                   script_path in
  _launch_claude h c w
  = (Ok tt,
     mkWorld (files (staged w fd script_path content)) (open_fds w)
       (procs w ++ [mkProc argv None true false])
       (dialogs w ++ [launched_notice])
       (calls w ++ staging_calls fd script_path content
        ++ attempts h before
        ++ [call_Popen (mkProc argv None true false)])).
Proof.
  intros Hp Hd Hst Hl Hb Hr Hpo content.
  apply String.eqb_neq in Hp.
  destruct (staging_runs h w fd script_path (_build_command c)
              (working_dir_of h c) Hst) as [w1 [Hmk Hstage]].
  unfold _launch_claude. cbv zeta. rewrite Hd, Hp. cbn [negb].
  unfold try_except at 1. unfold bind at 1.
  unfold _launch_claude_unix.
  rewrite (bind_ok _ _ _ _ _ Hmk). cbv zeta. cbn [fst snd].
  rewrite (bind_ok _ _ _ _ _ Hstage).
  rewrite Hl.
  rewrite (bind_ok _ _ _ _ _
             (probing_succeeds h before after argv _ Hb Hr Hpo)).
  unfold ret, messagebox, staged.
  cbn [files open_fds procs dialogs calls].
  fold content. now rewrite <- !app_assoc.
Qed.

Lemma first_terminal_wins_witness :
  exists fs cs,
    _launch_claude xterm_host (base_config "claude" "opus" "hello")
      empty_world
    = (Ok tt,
       mkWorld fs []
         [mkProc ["xterm"; "-e"; "sh /tmp/claude_gui_x.sh; exec sh"]
            None true false]
         [launched_notice] cs)
    /\ existsb (fun f => fst f =? "/tmp/claude_gui_x.sh") fs = true.
Proof.
  do 2 eexists. split.
  - apply (first_terminal_wins xterm_host
             (base_config "claude" "opus" "hello") empty_world 3
             "/tmp/claude_gui_x.sh"
             [["x-terminal-emulator"; "-e";
               "sh /tmp/claude_gui_x.sh; exec sh"];
              ["gnome-terminal"; "--"; "sh"; "-c";
               "sh /tmp/claude_gui_x.sh; exec bash"]]
             [["konsole"; "-e"; "sh"; "/tmp/claude_gui_x.sh"];
              ["xfce4-terminal"; "-e"; "sh /tmp/claude_gui_x.sh; exec sh"]]
             ["xterm"; "-e"; "sh /tmp/claude_gui_x.sh; exec sh"]).
    + discriminate.
    + reflexivity.
    + repeat split; reflexivity.
    + reflexivity.
    + repeat constructor; left; reflexivity.
    + reflexivity.
    + reflexivity.
  - reflexivity.
Defined.

(** *** No temporary file *)

(** X10. When [tempfile.mkstemp] itself raises, nothing is staged and
    nothing started: the only system call is the failed [mkstemp], and
    the exception is reported in one error box. *)
Theorem mkstemp_failure_is_reported (h : Host) (c : Config) (w : World)
  (e : exn) :
  platform h <> "win32" ->
  isdir h (working_dir_of h c) = true ->
  mkstemp_result h = Raise e ->
  _launch_claude h c w
  = (Ok tt,
     mkWorld (files w) (open_fds w) (procs w)
             (dialogs w ++ [error_box e]) (calls w ++ [call_mkstemp])).
Proof.
  intros Hp Hd Hmk. apply String.eqb_neq in Hp.
  unfold _launch_claude. cbv zeta. rewrite Hd, Hp. cbn [negb].
  unfold try_except, _launch_claude_unix, mkstemp, bind, log.
  rewrite Hmk. unfold raise, dispatch, error_box, messagebox.
  cbn [files open_fds procs dialogs calls].
  destruct (isinstance_FileNotFoundError e); reflexivity.
Qed.

Lemma mkstemp_failure_is_reported_witness :
  _launch_claude no_tmp_host (base_config "claude" "opus" "hello")
    empty_world
  = (Ok tt, mkWorld [] [] [] [not_found_error] [call_mkstemp]).
Proof.
  apply (mkstemp_failure_is_reported no_tmp_host
           (base_config "claude" "opus" "hello") empty_world
           (mkExn FileNotFoundError
              "[Errno 2] No usable temporary directory found")).
  - discriminate.
  - reflexivity.
  - reflexivity.
Defined.

(** *** Staging failures that are cleaned up *)

Lemma write_failure_cleans_up_witness :
  exists w',
    _launch_claude_unix disk_full_host ["claude"] "/home/user" empty_world
    = (Raise (mkExn OSError "[Errno 28] No space left on device"), w')
    /\ path_present "/tmp/claude_gui_x.sh" w' = false.
Proof.
  destruct (write_failure_cleans_up disk_full_host empty_world 3
              "/tmp/claude_gui_x.sh" ["claude"] "/home/user"
              (mkExn OSError "[Errno 28] No space left on device"))
    as [w' (H1 & H2 & _)]; try reflexivity.
  exists w'. split; assumption.
Defined.


(** *** The candidates *)

(** X13. The [osascript] candidate is tried on macOS only, and there
    first; on every other platform the candidates are the five terminal
    emulators, in this order: x-terminal-emulator, gnome-terminal, xterm,
    konsole, xfce4-terminal. *)
Theorem osascript_only_on_darwin (h : Host) (script_path : string) :
  (platform h = "darwin" ->
   exists script, exists rest,
     launchers h script_path = ["osascript"; "-e"; script] :: rest
     /\ map (hd EmptyString) rest
        = ["x-terminal-emulator"; "gnome-terminal"; "xterm"; "konsole";
           "xfce4-terminal"])
  /\ (platform h <> "darwin" ->
      map (hd EmptyString) (launchers h script_path)
      = ["x-terminal-emulator"; "gnome-terminal"; "xterm"; "konsole";
         "xfce4-terminal"]).
Proof.
  split.
  - intros Hp. unfold launchers. rewrite Hp.
    change ("darwin" =? "darwin") with true. cbv iota zeta.
    do 2 eexists. split; reflexivity.
  - intros Hp. apply String.eqb_neq in Hp. unfold launchers. rewrite Hp.
    reflexivity.
Qed.

Lemma osascript_only_on_darwin_witness :
  map (hd EmptyString) (launchers headless_host "/tmp/claude_gui_x.sh")
  = ["x-terminal-emulator"; "gnome-terminal"; "xterm"; "konsole";
     "xfce4-terminal"].
Proof.
  apply (proj2 (osascript_only_on_darwin headless_host
                  "/tmp/claude_gui_x.sh")).
  discriminate.
Defined.

(** ** What every launch does, on every host *)

(** *** Composing postconditions *)

Lemma post_ret {A} (a : A) (w : World) (Q : result A -> World -> Prop) :
  Q (Ok a) w -> post (ret a) w Q.
Proof. exact (fun H => H). Qed.

Lemma post_raise {A} (e : exn) (w : World) (Q : result A -> World -> Prop) :
  Q (Raise e) w -> post (raise e) w Q.
Proof. exact (fun H => H). Qed.

Lemma post_weaken {A} (m : M A) (w : World) (Q Q' : result A -> World -> Prop) :
  post m w Q -> (forall r w', Q r w' -> Q' r w') -> post m w Q'.
Proof. unfold post. auto. Qed.

Lemma post_bind {A B} (m : M A) (k : A -> M B) (w : World)
  (Q : result B -> World -> Prop) :
  post m w (fun r w1 =>
              match r with
              | Ok a => post (k a) w1 Q
              | Raise e => Q (Raise e) w1
              end) ->
  post (bind m k) w Q.
Proof. unfold post, bind. destruct (m w) as [[a | e] w1]; simpl; auto. Qed.

Lemma post_try_except {A} (body : M A) (clauses : list (clause A))
  (w : World) (Q : result A -> World -> Prop) :
  post body w (fun r w1 =>
                 match r with
                 | Ok a => Q (Ok a) w1
                 | Raise e => post (dispatch clauses e) w1 Q
                 end) ->
  post (try_except body clauses) w Q.
Proof.
  unfold post, try_except. destruct (body w) as [[a | e] w1]; simpl; auto.
Qed.

Lemma post_try_finally {A} (body : M A) (fin : M unit) (w : World)
  (Q : result A -> World -> Prop) :
  post body w (fun r w1 =>
                 post fin w1 (fun rf w2 =>
                                match rf with
                                | Ok _ => Q r w2
                                | Raise e => Q (Raise e) w2
                                end)) ->
  post (try_finally body fin) w Q.
Proof.
  unfold post, try_finally. destruct (body w) as [r w1]. simpl.
  destruct (fin w1) as [[u | e] w2]; simpl; auto.
Qed.


(** *** Relations that every step keeps *)

Section Keeps.

Variable R : World -> World -> Prop.
Hypothesis R_refl : forall w, R w w.
Hypothesis R_trans : forall a b c, R a b -> R b c -> R a c.

Lemma keeps_ret {A} (a : A) : keeps R (ret a).
Proof. intros w. apply R_refl. Qed.

Lemma keeps_raise {A} (e : exn) : keeps R (@raise A e).
Proof. intros w. apply R_refl. Qed.

Lemma keeps_bind {A B} (m : M A) (k : A -> M B) :
  keeps R m -> (forall a, keeps R (k a)) -> keeps R (bind m k).
Proof.
  intros Hm Hk w. unfold bind. specialize (Hm w).
  destruct (m w) as [[a | e] w1]; simpl in *; [| exact Hm].
  exact (R_trans _ _ _ Hm (Hk a w1)).
Qed.

Lemma keeps_dispatch {A} (clauses : list (clause A)) (e : exn) :
  Forall (fun cl => forall x, keeps R (snd cl x)) clauses ->
  keeps R (dispatch clauses e).
Proof.
  intros H. induction H as [| [catches handler] rest Hc Hrest IH]; simpl.
  - apply keeps_raise.
  - destruct (catches e); [apply Hc | exact IH].
Qed.

Lemma keeps_try_except {A} (body : M A) (clauses : list (clause A)) :
  keeps R body ->
  Forall (fun cl => forall x, keeps R (snd cl x)) clauses ->
  keeps R (try_except body clauses).
Proof.
  intros Hb Hc w. unfold try_except. specialize (Hb w).
  destruct (body w) as [[a | e] w1]; simpl in *; [exact Hb |].
  exact (R_trans _ _ _ Hb (keeps_dispatch clauses e Hc w1)).
Qed.

Lemma keeps_try_finally {A} (body : M A) (fin : M unit) :
  keeps R body -> keeps R fin -> keeps R (try_finally body fin).
Proof.
  intros Hb Hf w. unfold try_finally. specialize (Hb w).
  destruct (body w) as [r w1]. specialize (Hf w1). simpl in *.
  destruct (fin w1) as [[u | e] w2]; simpl in *;
    exact (R_trans _ _ _ Hb Hf).
Qed.

Lemma keeps_fail_if {A} (err : option exn) (k : M A) :
  keeps R k -> keeps R (fail_if err k).
Proof. intros Hk. destruct err; [apply keeps_raise | exact Hk]. Qed.

End Keeps.

Lemma unseen_refl (w : World) : unseen w w.
Proof. split; reflexivity. Qed.

Lemma unseen_trans (a b c : World) : unseen a b -> unseen b c -> unseen a c.
Proof. intros [H1 H2] [H3 H4]. split; congruence. Qed.

Lemma same_fds_refl (w : World) : same_fds w w.
Proof. reflexivity. Qed.

Lemma same_fds_trans (a b c : World) :
  same_fds a b -> same_fds b c -> same_fds a c.
Proof. unfold same_fds. congruence. Qed.

(** Closes [keeps R op] for a system call [op] by running it on every
    answer of the host. *)
Ltac by_cases_of_the_host :=
  intros [fs fds ps ds cs];
  unfold mkstemp, os_write, os_close, os_chmod, os_remove, Popen, messagebox,
    bind, log, fail_if, raise, ret, unseen, same_fds;
  cbn [files open_fds procs dialogs calls];
  repeat match goal with
         | |- context [match ?x with _ => _ end] => destruct x
         end;
  cbn [fst snd files open_fds procs dialogs calls]; auto.

Lemma mkstemp_unseen (h : Host) : keeps unseen (mkstemp h).
Proof. by_cases_of_the_host. Qed.

Lemma os_write_unseen (h : Host) fd data : keeps unseen (os_write h fd data).
Proof. by_cases_of_the_host. Qed.

Lemma os_close_unseen (h : Host) fd : keeps unseen (os_close h fd).
Proof. by_cases_of_the_host. Qed.

Lemma os_chmod_unseen (h : Host) p mode : keeps unseen (os_chmod h p mode).
Proof. by_cases_of_the_host. Qed.

Lemma os_remove_unseen (h : Host) p : keeps unseen (os_remove h p).
Proof. by_cases_of_the_host. Qed.



Lemma os_remove_same_fds (h : Host) p : keeps same_fds (os_remove h p).
Proof. by_cases_of_the_host. Qed.

Lemma Popen_same_fds (h : Host) p : keeps same_fds (Popen h p).
Proof. by_cases_of_the_host. Qed.

Lemma messagebox_same_fds (d : Dialog) : keeps same_fds (messagebox d).
Proof. by_cases_of_the_host. Qed.

Lemma cleanup_unseen (h : Host) (p : string) :
  keeps unseen (try_except (os_remove h p) [pass_OSError]).
Proof.
  apply (keeps_try_except unseen unseen_refl unseen_trans).
  - apply os_remove_unseen.
  - constructor; [| constructor]. intros x.
    apply (keeps_ret unseen unseen_refl).
Qed.

Lemma cleanup_same_fds (h : Host) (p : string) :
  keeps same_fds (try_except (os_remove h p) [pass_OSError]).
Proof.
  apply (keeps_try_except same_fds same_fds_refl same_fds_trans).
  - apply os_remove_same_fds.
  - constructor; [| constructor]. intros x.
    apply (keeps_ret same_fds same_fds_refl).
Qed.

(** Splits [keeps unseen] along a sequence of statements. *)
Ltac unseen_steps :=
  repeat lazymatch goal with
         | |- keeps unseen (bind _ _) =>
             apply (keeps_bind unseen unseen_trans); [| intros _]
         end.

Lemma stage_script_unseen (h : Host) fd p cmd wd :
  keeps unseen (stage_script h fd p cmd wd).
Proof.
  unfold stage_script.
  apply (keeps_try_except unseen unseen_refl unseen_trans).
  - unseen_steps;
      auto using os_write_unseen, os_close_unseen, os_chmod_unseen.
  - constructor; [| constructor]. intros e. cbn [snd].
    unseen_steps; auto using os_close_unseen, cleanup_unseen.
    apply (keeps_raise unseen unseen_refl).
Qed.

(** *** Probing, on any host *)

Lemma probing_outcomes (h : Host) (ls : list (list string)) (w : World) :
  post (try_launchers h ls) w
    (fun r w' =>
       files w' = files w /\ open_fds w' = open_fds w
       /\ dialogs w' = dialogs w
       /\ match r with
          | Ok true =>
              exists argv,
                In argv ls
                /\ procs w' = procs w ++ [mkProc argv None true false]
          | _ => procs w' = procs w
          end).
Proof.
  revert w. induction ls as [| argv ls IH]; intros w.
  - unfold post. simpl. auto.
  - cbn [try_launchers]. apply post_bind.
    unfold post at 1, try_except.
    destruct w as [fs fds ps ds cs].
    destruct (resolves h argv).
    + unfold Popen, bind, log, fail_if. cbn [p_argv].
      destruct (popen_error h argv) as [e |].
      * unfold dispatch. unfold raise. cbn [fst snd].
        destruct (isinstance_OSError e); cbn [fst snd ret].
        -- apply (post_weaken _ _ _ _ (IH _)).
           intros r w' (Hf & Ho & Hd & Hp).
           cbn [files open_fds procs dialogs calls] in *.
           repeat split; try assumption.
           destruct r as [[|] |]; try assumption.
           destruct Hp as [a [Ha Hp]]. exists a. split; [now right | exact Hp].
        -- cbn [files open_fds procs dialogs calls]. auto.
      * cbn [fst snd ret]. unfold post. cbn [fst snd ret].
        cbn [files open_fds procs dialogs calls].
        repeat split. exists argv. split; [now left | reflexivity].
    + cbn [fst snd ret].
      apply (post_weaken _ _ _ _ (IH _)).
      intros r w' (Hf & Ho & Hd & Hp).
      repeat split; try assumption.
      destruct r as [[|] |]; try assumption.
      destruct Hp as [a [Ha Hp]]. exists a. split; [now right | exact Hp].
Qed.

(** *** The fallback, on any host *)

Lemma fallback_outcomes (h : Host) (cmd : list string)
  (working_dir script_path : string) (w : World) :
  post (try_finally
          (Popen h (mkProc cmd (Some working_dir) true false))
          (try_except (os_remove h script_path) [pass_OSError])) w
    (fun r w' =>
       dialogs w' = dialogs w /\ open_fds w' = open_fds w
       /\ ((raised r /\ procs w' = procs w)
           \/ procs w' = procs w ++ [direct_spawn cmd working_dir])).
Proof.
  apply post_try_finally.
  destruct w as [fs fds ps ds cs]. unfold post at 1.
  destruct (popen_error h cmd) as [e |] eqn:E.
  - rewrite (Popen_raises h _ e) by exact E. cbn [fst snd].
    pose proof (cleanup_unseen h script_path
                  (mkWorld fs fds ps ds
                     (cs ++ [call_Popen
                               (mkProc cmd (Some working_dir) true false)])))
      as [Hp Hd].
    pose proof (cleanup_same_fds h script_path
                  (mkWorld fs fds ps ds
                     (cs ++ [call_Popen
                               (mkProc cmd (Some working_dir) true false)])))
      as Hf.
    unfold post, same_fds in *.
    cbn [files open_fds procs dialogs calls] in *.
    destruct (fst _); (split; [exact Hd | split; [exact Hf |]]);
      left; (split; [eexists; reflexivity | exact Hp]).
  - rewrite Popen_ok by exact E. cbn [fst snd].
    pose proof (cleanup_unseen h script_path
                  (mkWorld fs fds
                     (ps ++ [mkProc cmd (Some working_dir) true false]) ds
                     (cs ++ [call_Popen
                               (mkProc cmd (Some working_dir) true false)])))
      as [Hp Hd].
    pose proof (cleanup_same_fds h script_path
                  (mkWorld fs fds
                     (ps ++ [mkProc cmd (Some working_dir) true false]) ds
                     (cs ++ [call_Popen
                               (mkProc cmd (Some working_dir) true false)])))
      as Hf.
    unfold post, same_fds in *.
    cbn [files open_fds procs dialogs calls] in *.
    destruct (fst _); (split; [exact Hd | split; [exact Hf |]]);
      right; exact Hp.
Qed.

(** *** [_launch_claude_unix], on any host *)

Lemma unix_outcomes (h : Host) (cmd : list string) (working_dir : string)
  (w : World) :
  post (_launch_claude_unix h cmd working_dir) w
    (unix_outcome h cmd working_dir w).
Proof.
  unfold _launch_claude_unix. apply post_bind.
  pose proof (mkstemp_unseen h w) as U1. unfold post at 1.
  destruct (mkstemp h w) as [[[fd script_path] | e] w1]; cbn [fst snd] in *.
  2: { left. split; [now exists e | exact U1]. }
  apply post_bind.
  pose proof (stage_script_unseen h fd script_path cmd working_dir w1) as U2.
  unfold post at 1.
  destruct (stage_script h fd script_path cmd working_dir w1)
    as [[[] | e] w2]; cbn [fst snd] in *.
  2: { left. split; [now exists e | exact (unseen_trans _ _ _ U1 U2)]. }
  pose proof (unseen_trans _ _ _ U1 U2) as [Up Ud].
  apply post_bind.
  apply (post_weaken _ _ _ _ (probing_outcomes h _ w2)).
  intros r w3 (_ & _ & Hd3 & Hp3).
  destruct r as [[|] | e].
  - unfold post. cbn [fst snd ret]. right. left.
    split; [reflexivity |]. split; [congruence |].
    destruct Hp3 as [argv [Hin Hp3]].
    exists script_path, argv. split; [exact Hin | congruence].
  - apply post_bind.
    apply (post_weaken _ _ _ _
             (fallback_outcomes h cmd working_dir script_path w3)).
    intros r w4 (Hd4 & _ & Hcase).
    destruct r as [[] | e].
    + unfold post, messagebox, unix_outcome.
      cbn [fst snd files open_fds procs dialogs calls].
      destruct Hcase as [[[e He] _] | Hp4]; [discriminate He |].
      right. right. left.
      split; [reflexivity |]. split; congruence.
    + destruct Hcase as [[_ Hp4] | Hp4].
      * left. split; [now exists e |]. split; congruence.
      * right. right. right.
        split; [now exists e |]. split; congruence.
  - left. split; [now exists e |]. split; congruence.
Qed.

(** *** [_launch_claude], on any host *)

Lemma launch_outcomes (h : Host) (c : Config) (w : World) :
  exists w' ds ps d,
    _launch_claude h c w = (Ok tt, w')
    /\ dialogs w' = dialogs w ++ ds ++ [d]
    /\ procs w' = procs w ++ ps
    /\ (ds = [] \/ ds = [background_notice])
    /\ (d = invalid_dir_error (working_dir_of h c) \/ d = launched_notice
        \/ exists e, d = error_box e)
    /\ (ps = []
        \/ ps = [console_spawn (_build_command c) (working_dir_of h c)]
        \/ ps = [direct_spawn (_build_command c) (working_dir_of h c)]
        \/ exists script_path argv,
             In argv (launchers h script_path)
             /\ ps = [mkProc argv None true false]).
Proof.
  unfold _launch_claude. cbv zeta.
  destruct (isdir h (working_dir_of h c)); cbn [negb].
  2: { exists (mkWorld (files w) (open_fds w) (procs w)
                 (dialogs w ++ [invalid_dir_error (working_dir_of h c)])
                 (calls w)), [], [], (invalid_dir_error (working_dir_of h c)).
       cbn [files open_fds procs dialogs calls app].
       rewrite app_nil_r. repeat split; auto. }
  set (cmd := _build_command c). set (wd := working_dir_of h c).
  assert (Hstep :
    post (if platform h =? "win32"
          then Popen h (mkProc cmd (Some wd) false true)
          else _launch_claude_unix h cmd wd) w
      (fun r w1 =>
         (raised r /\ unseen w w1)
         \/ (r = Ok tt /\ dialogs w1 = dialogs w
             /\ (procs w1 = procs w ++ [console_spawn cmd wd]
                 \/ exists script_path argv,
                      In argv (launchers h script_path)
                      /\ procs w1 = procs w ++ [mkProc argv None true false]))
         \/ (r = Ok tt /\ dialogs w1 = dialogs w ++ [background_notice]
             /\ procs w1 = procs w ++ [direct_spawn cmd wd])
         \/ (raised r /\ dialogs w1 = dialogs w
             /\ procs w1 = procs w ++ [direct_spawn cmd wd]))).
  { destruct (platform h =? "win32").
    - destruct w as [fs fds ps ds cs]. unfold post.
      destruct (popen_error h cmd) as [e |] eqn:E.
      + rewrite (Popen_raises h _ e) by exact E. cbn [fst snd].
        left. split; [now exists e | split; reflexivity].
      + rewrite Popen_ok by exact E. cbn [fst snd].
        right. left. repeat split. now left.
    - apply (post_weaken _ _ _ _ (unix_outcomes h cmd wd w)).
      intros r w1 [H | [(Hr & Hd & s & a & Hin & Hp) | [H | H]]]; auto.
      right. left. repeat split; try assumption.
      right. now exists s, a. }
  unfold try_except, bind. unfold post in Hstep.
  destruct ((if platform h =? "win32"
             then Popen h (mkProc cmd (Some wd) false true)
             else _launch_claude_unix h cmd wd) w) as [r w1].
  cbn [fst snd] in Hstep.
  destruct Hstep as [[[e ->] [Hp Hd]]
                    | [(-> & Hd & Hp)
                      | [(-> & Hd & Hp) | ([e ->] & Hd & Hp)]]].
  - (* failed before anything was started *)
    exists (mkWorld (files w1) (open_fds w1) (procs w1)
              (dialogs w1 ++ [error_box e]) (calls w1)), [], [], (error_box e).
    split.
    { unfold dispatch, error_box, messagebox.
      destruct (isinstance_FileNotFoundError e); reflexivity. }
    cbn [files open_fds procs dialogs calls app]. rewrite Hd, Hp, app_nil_r.
    repeat split; auto. right. right. now exists e.
  - (* a console or a terminal was started *)
    destruct Hp as [Hp | (s & a & Hin & Hp)].
    + exists (mkWorld (files w1) (open_fds w1) (procs w1)
                (dialogs w1 ++ [launched_notice]) (calls w1)), [],
        [console_spawn cmd wd], launched_notice.
      unfold messagebox. cbn [files open_fds procs dialogs calls app].
      rewrite Hd, Hp. repeat split; auto.
    + exists (mkWorld (files w1) (open_fds w1) (procs w1)
                (dialogs w1 ++ [launched_notice]) (calls w1)), [],
        [mkProc a None true false], launched_notice.
      unfold messagebox. cbn [files open_fds procs dialogs calls app].
      rewrite Hd, Hp. repeat split; auto.
      right. right. right. now exists s, a.
  - (* started in the background *)
    exists (mkWorld (files w1) (open_fds w1) (procs w1)
              (dialogs w1 ++ [launched_notice]) (calls w1)),
      [background_notice], [direct_spawn cmd wd], launched_notice.
    unfold messagebox. cbn [files open_fds procs dialogs calls app].
    rewrite Hd, Hp, <- app_assoc. repeat split; auto.
  - (* started, then an exception *)
    exists (mkWorld (files w1) (open_fds w1) (procs w1)
              (dialogs w1 ++ [error_box e]) (calls w1)), [],
      [direct_spawn cmd wd], (error_box e).
    split.
    { unfold dispatch, error_box, messagebox.
      destruct (isinstance_FileNotFoundError e); reflexivity. }
    cbn [files open_fds procs dialogs calls app]. rewrite Hd, Hp.
    repeat split; auto. right. right. now exists e.
Qed.


(** X12. A launch starts at most one process, on any host: none, or the
    raw command in the working directory (in a new console on Windows,
    in a new session without terminal in the fallback), or one terminal
    candidate of the list. *)
Theorem launch_starts_at_most_one_process (h : Host) (c : Config)
  (w : World) :
  exists ps,
    procs (snd (_launch_claude h c w)) = procs w ++ ps
    /\ (ps = []
        \/ ps = [console_spawn (_build_command c) (working_dir_of h c)]
        \/ ps = [direct_spawn (_build_command c) (working_dir_of h c)]
        \/ exists script_path argv,
             In argv (launchers h script_path)
             /\ ps = [mkProc argv None true false]).
Proof.
  destruct (launch_outcomes h c w)
    as (w' & ds & ps & d & Hrun & _ & Hp & _ & _ & Hps).
  exists ps. rewrite Hrun. auto.
Qed.

(** *** The descriptor of the script *)









(** ** The directory lists *)

Lemma elem_false_not_in (path : string) (dirs : list string) :
  elem path dirs = false -> ~ In path dirs.
Proof.
  unfold elem. induction dirs as [| d dirs IH]; simpl; [tauto |].
  intros H. apply orb_false_iff in H. destruct H as [Hd Hr].
  apply String.eqb_neq in Hd. intros [E | E]; [congruence | now apply IH].
Qed.

Lemma NoDup_snoc (path : string) (dirs : list string) :
  NoDup dirs -> ~ In path dirs -> NoDup (dirs ++ [path]).
Proof.
  intros Hn Hp. induction Hn as [| d dirs Hd Hn IH]; simpl.
  - constructor; [tauto | constructor].
  - constructor.
    + rewrite in_app_iff. simpl. intros [H | [H | []]]; [tauto |].
      apply Hp. now left.
    + apply IH. intros H. apply Hp. now right.
Qed.

Lemma well_formed_snoc (path : string) (dirs : list string) :
  dirs_well_formed dirs -> truthy path = true -> elem path dirs = false ->
  dirs_well_formed (dirs ++ [path]).
Proof.
  intros [Hn Hf] Hp He. split.
  - apply NoDup_snoc; [exact Hn | now apply elem_false_not_in].
  - apply Forall_app. split; [exact Hf |].
    constructor; [now apply truthy_true_iff | constructor].
Qed.

(** X15. The Add buttons keep the directory lists well formed and the
    window consistent: from a window whose list boxes and preview are in
    sync with the variables and whose list has no duplicate and no empty
    entry, [_add_plugin_dir] leaves such a window again; a cancelled
    dialog or a directory already listed changes nothing, any other
    directory is appended at the end.  [_add_directory] does the same for
    the extra directories. *)
Theorem add_keeps_lists_well_formed (h : Host) (path : string) (g : Gui) :
  in_sync h g ->
  dirs_well_formed (plugin_dirs (vars g)) ->
  dirs_well_formed (add_dirs (vars g)) ->
  (let g' := _add_plugin_dir h path g in
   in_sync h g'
   /\ dirs_well_formed (plugin_dirs (vars g'))
   /\ add_dirs (vars g') = add_dirs (vars g)
   /\ (if truthy path && negb (elem path (plugin_dirs (vars g)))
       then plugin_dirs (vars g') = plugin_dirs (vars g) ++ [path]
       else g' = g))
  /\ (let g' := _add_directory h path g in
      in_sync h g'
      /\ dirs_well_formed (add_dirs (vars g'))
      /\ plugin_dirs (vars g') = plugin_dirs (vars g)
      /\ (if truthy path && negb (elem path (add_dirs (vars g)))
          then add_dirs (vars g') = add_dirs (vars g) ++ [path]
          else g' = g)).
Proof.
  intros (Hp & Ha & Hc) Hwp Hwa. split; intros g'; subst g'.
  - unfold _add_plugin_dir.
    destruct (truthy path && negb (elem path (plugin_dirs (vars g)))) eqn:E.
    + apply andb_true_iff in E. destruct E as [Et En].
      apply negb_true_iff in En.
      unfold in_sync, _update_command_preview.
      cbn [vars plugin_listbox add_dir_listbox command_preview
           set_plugin_dirs plugin_dirs add_dirs].
      rewrite Hp.
      split; [repeat split; assumption |].
      split; [now apply well_formed_snoc |].
      split; reflexivity.
    + split; [repeat split; assumption |].
      split; [exact Hwp |]. split; reflexivity.
  - unfold _add_directory.
    destruct (truthy path && negb (elem path (add_dirs (vars g)))) eqn:E.
    + apply andb_true_iff in E. destruct E as [Et En].
      apply negb_true_iff in En.
      unfold in_sync, _update_command_preview.
      cbn [vars plugin_listbox add_dir_listbox command_preview
           set_add_dirs plugin_dirs add_dirs].
      rewrite Ha.
      split; [repeat split; assumption |].
      split; [now apply well_formed_snoc |].
      split; reflexivity.
    + split; [repeat split; assumption |].
      split; [exact Hwa |]. split; reflexivity.
Qed.

Lemma initial_gui_in_sync (h : Host) (expanduser : string -> string) :
  in_sync h (initial_gui h expanduser)
  /\ dirs_well_formed (plugin_dirs (vars (initial_gui h expanduser)))
  /\ dirs_well_formed (add_dirs (vars (initial_gui h expanduser))).
Proof.
  repeat split; constructor.
Qed.

Lemma add_keeps_lists_well_formed_witness :
  plugin_dirs
    (vars (_add_plugin_dir headless_host "/opt/plugins"
             (initial_gui headless_host (fun p => p))))
  = ["/opt/plugins"]
  /\ in_sync headless_host
       (_add_plugin_dir headless_host "/opt/plugins"
          (initial_gui headless_host (fun p => p))).
Proof.
  destruct (initial_gui_in_sync headless_host (fun p => p))
    as (Hs & Hp & Ha).
  destruct (add_keeps_lists_well_formed headless_host "/opt/plugins"
              (initial_gui headless_host (fun p => p)) Hs Hp Ha)
    as [(H1 & _ & _ & H4) _].
  split; [exact H4 | exact H1].
Defined.

Lemma remove_at_split {A} (idx : nat) (l : list A) (d : A) :
  idx < length l ->
  l = firstn idx l ++ nth idx l d :: skipn (S idx) l.
Proof.
  revert idx. induction l as [| x l IH]; intros idx H; simpl in H; [lia |].
  destruct idx as [| idx]; [reflexivity |].
  simpl. f_equal. apply IH. lia.
Qed.

Lemma well_formed_remove_at (idx : nat) (dirs : list string) :
  idx < length dirs ->
  dirs_well_formed dirs ->
  dirs_well_formed (remove_at idx dirs)
  /\ ~ In (nth idx dirs EmptyString) (remove_at idx dirs)
  /\ length (remove_at idx dirs) = length dirs - 1.
Proof.
  intros Hi [Hn Hf]. unfold remove_at.
  pose proof (remove_at_split idx dirs EmptyString Hi) as E.
  rewrite E in Hn, Hf.
  split; [split |]; [| | split].
  - now apply NoDup_remove_1 in Hn.
  - apply Forall_app in Hf. destruct Hf as [H1 H2].
    apply Forall_app. split; [exact H1 |]. now inversion H2.
  - now apply NoDup_remove_2 in Hn.
  - rewrite length_app, length_firstn, length_skipn. lia.
Qed.

(** X16. The Remove buttons take exactly the selected entry out of the
    list: from a window in sync with a well-formed list, with the
    selected index inside the list box, [_remove_plugin_dir] does not
    raise, leaves the list without its entry at that index and otherwise
    in the same order, one shorter and still well formed, the entry
    itself occurs no more, and the window is in sync again.
    [_remove_directory] does the same for the extra directories. *)
Theorem remove_takes_selected_entry_out (h : Host) (idx : nat)
  (others : list nat) (g : Gui) :
  in_sync h g ->
  (dirs_well_formed (plugin_dirs (vars g)) ->
   idx < length (plugin_listbox g) ->
   exists g',
     _remove_plugin_dir h (idx :: others) g = (Ok tt, g')
     /\ plugin_dirs (vars g') = remove_at idx (plugin_dirs (vars g))
     /\ length (plugin_dirs (vars g')) = length (plugin_dirs (vars g)) - 1
     /\ ~ In (nth idx (plugin_dirs (vars g)) EmptyString)
            (plugin_dirs (vars g'))
     /\ dirs_well_formed (plugin_dirs (vars g'))
     /\ add_dirs (vars g') = add_dirs (vars g)
     /\ in_sync h g')
  /\ (dirs_well_formed (add_dirs (vars g)) ->
      idx < length (add_dir_listbox g) ->
      exists g',
        _remove_directory h (idx :: others) g = (Ok tt, g')
        /\ add_dirs (vars g') = remove_at idx (add_dirs (vars g))
        /\ length (add_dirs (vars g')) = length (add_dirs (vars g)) - 1
        /\ ~ In (nth idx (add_dirs (vars g)) EmptyString)
               (add_dirs (vars g'))
        /\ dirs_well_formed (add_dirs (vars g'))
        /\ plugin_dirs (vars g') = plugin_dirs (vars g)
        /\ in_sync h g').
Proof.
  intros (Hp & Ha & Hc). split; intros Hwf Hi.
  - rewrite Hp in Hi.
    destruct (well_formed_remove_at idx _ Hi Hwf) as (Hw' & Hgone & Hlen).
    unfold _remove_plugin_dir. cbv zeta.
    apply Nat.ltb_lt in Hi. rewrite Hi.
    eexists. split; [reflexivity |].
    unfold in_sync, _update_command_preview.
    cbn [vars plugin_listbox add_dir_listbox command_preview set_plugin_dirs
         plugin_dirs add_dirs].
    rewrite Hp. repeat split; try assumption; apply Hw'.
  - rewrite Ha in Hi.
    destruct (well_formed_remove_at idx _ Hi Hwf) as (Hw' & Hgone & Hlen).
    unfold _remove_directory. cbv zeta.
    apply Nat.ltb_lt in Hi. rewrite Hi.
    eexists. split; [reflexivity |].
    unfold in_sync, _update_command_preview.
    cbn [vars plugin_listbox add_dir_listbox command_preview set_add_dirs
         plugin_dirs add_dirs].
    rewrite Ha. repeat split; try assumption; apply Hw'.
Qed.

Lemma remove_takes_selected_entry_out_witness :
  exists g',
    _remove_plugin_dir headless_host [1]
      (mkGui (set_plugin_dirs ["/opt/a"; "/opt/b"; "/opt/c"]
                (base_config "claude" "opus" "hello"))
             ["/opt/a"; "/opt/b"; "/opt/c"] []
             "claude --model opus --plugin-dir /opt/a --plugin-dir /opt/b --plugin-dir /opt/c hello")
    = (Ok tt, g')
    /\ plugin_dirs (vars g') = ["/opt/a"; "/opt/c"].
Proof.
  destruct (proj1 (remove_takes_selected_entry_out headless_host 1 []
              (mkGui (set_plugin_dirs ["/opt/a"; "/opt/b"; "/opt/c"]
                        (base_config "claude" "opus" "hello"))
                     ["/opt/a"; "/opt/b"; "/opt/c"] []
                     "claude --model opus --plugin-dir /opt/a --plugin-dir /opt/b --plugin-dir /opt/c hello")
              ltac:(repeat split; reflexivity)))
    as (g' & Hrun & Hdirs & _).
  - split.
    + repeat constructor; simpl; intuition discriminate.
    + repeat constructor; discriminate.
  - simpl. lia.
  - exists g'. split; [exact Hrun | exact Hdirs].
Defined.

(** ** Finding the executable *)

Lemma find_claude_path_cases (h : Host) (expanduser : string -> string) :
  path_exists h EmptyString = false ->
  let r := _find_claude_path h expanduser in
  r <> EmptyString
  /\ (forall p, which h "claude" = Some p -> p <> EmptyString -> r = p)
  /\ ((which h "claude" = None \/ which h "claude" = Some EmptyString) ->
      (exists before after,
          possible_paths h expanduser = before ++ r :: after
          /\ path_exists h r = true
          /\ Forall (fun p => path_exists h p = false) before)
      \/ (r = "claude"
          /\ Forall (fun p => path_exists h p = false)
                (possible_paths h expanduser))).
Proof.
  intros Hex r. subst r. unfold _find_claude_path. cbv zeta.
  assert (Hcommon :
    let r := match find (path_exists h) (possible_paths h expanduser) with
             | Some p => p
             | None => "claude"
             end in
    r <> EmptyString
    /\ ((exists before after,
            possible_paths h expanduser = before ++ r :: after
            /\ path_exists h r = true
            /\ Forall (fun p => path_exists h p = false) before)
        \/ (r = "claude"
            /\ Forall (fun p => path_exists h p = false)
                  (possible_paths h expanduser)))).
  { cbv zeta. generalize (possible_paths h expanduser). intros l.
    induction l as [| x l IH]; simpl.
    - split; [discriminate |]. right. split; [reflexivity | constructor].
    - destruct (path_exists h x) eqn:Ex.
      + split; [intros ->; congruence |].
        left. exists [], l. repeat split; [exact Ex | constructor].
      + destruct IH as [Hne [(b & a & Hl & Hr & Hb) | [Hr Hall]]].
        * split; [exact Hne |]. left.
          exists (x :: b), a. rewrite Hl at 1.
          repeat split; [exact Hr | now constructor].
        * split; [exact Hne |]. right. split; [exact Hr | now constructor]. }
  cbv zeta in Hcommon. destruct Hcommon as [Hne Hcase].
  destruct (which h "claude") as [p |] eqn:Ew.
  - destruct p as [| c p]; cbn [truthy].
    + split; [exact Hne |]. split; [intros q H; injection H as <-; congruence |].
      intros _. exact Hcase.
    + split; [discriminate |].
      split; [intros q H _; now injection H as <- |].
      intros [H | H]; discriminate H.
  - split; [exact Hne |]. split; [discriminate |]. intros _. exact Hcase.
Qed.


(** X17. [_find_claude_path] prefers the search path: a non-empty answer
    of [shutil.which("claude")] is returned as it is; otherwise the
    result is the first of the common locations that exists, and the
    bare name [claude] exactly when none exists.  The result is never
    the empty string ([os.path.exists] being false of the empty path). *)
Theorem find_claude_path_result (h : Host) (expanduser : string -> string) :
  path_exists h EmptyString = false ->
  let r := _find_claude_path h expanduser in
  r <> EmptyString
  /\ (forall p, which h "claude" = Some p -> p <> EmptyString -> r = p)
  /\ ((which h "claude" = None \/ which h "claude" = Some EmptyString) ->
      (exists before after,
          possible_paths h expanduser = before ++ r :: after
          /\ path_exists h r = true
          /\ Forall (fun p => path_exists h p = false) before)
      \/ (r = "claude"
          /\ Forall (fun p => path_exists h p = false)
                (possible_paths h expanduser))).
Proof. exact (find_claude_path_cases h expanduser). Qed.

Lemma find_claude_path_result_witness :
  _find_claude_path xterm_host (fun p => p) <> EmptyString.
Proof.
  apply (find_claude_path_result xterm_host (fun p => p)).
  reflexivity.
Defined.

(** X18. After Auto-detect the command starts with the path found: the
    first token of the vector is the result of [_find_claude_path], the
    other variables and the lists are untouched, the preview shows the
    new command, and the box is the not-found warning exactly when the
    result is the bare name [claude]. *)
Theorem autodetect_sets_first_token (h : Host)
  (expanduser : string -> string) (g : Gui) :
  path_exists h EmptyString = false ->
  let r := _autodetect_claude_path h expanduser g in
  hd_error (_build_command (vars (fst r)))
  = Some (_find_claude_path h expanduser)
  /\ vars (fst r) = set_claude_path (_find_claude_path h expanduser) (vars g)
  /\ command_preview (fst r)
     = _get_command_string (platform h) (vars (fst r))
  /\ (snd r = not_detected_warning
      <-> _find_claude_path h expanduser = "claude").
Proof.
  intros Hex r. subst r. unfold _autodetect_claude_path. cbv zeta.
  cbn [fst snd]. unfold _update_command_preview. cbn [vars command_preview].
  destruct (find_claude_path_cases h expanduser Hex) as [Hne _].
  split; [| split; [reflexivity | split; [reflexivity |]]].
  - destruct (build_head_tail
                (set_claude_path (_find_claude_path h expanduser) (vars g)))
      as [rest ->].
    cbn [hd_error set_claude_path claude_path_var]. unfold or_else.
    destruct (_find_claude_path h expanduser); [congruence | reflexivity].
  - destruct (_find_claude_path h expanduser =? "claude") eqn:E.
    + apply String.eqb_eq in E. tauto.
    + apply String.eqb_neq in E. split; [discriminate | tauto].
Qed.

Lemma autodetect_sets_first_token_witness :
  hd_error
    (_build_command
       (vars (fst (_autodetect_claude_path xterm_host (fun p => p)
                     (initial_gui xterm_host (fun p => p))))))
  = Some (_find_claude_path xterm_host (fun p => p)).
Proof.
  apply (autodetect_sets_first_token xterm_host (fun p => p)
           (initial_gui xterm_host (fun p => p))).
  reflexivity.
Defined.

(** ** Reset *)

(** X19. Reset All, once confirmed, restores exactly the window of
    start-up, from any state: every variable and text block has the value
    [_init_variables] gave it, both lists and list boxes are empty and
    the preview shows the start-up command; declined, it changes
    nothing. *)
Theorem reset_restores_startup (h : Host) (expanduser : string -> string)
  (g : Gui) :
  _reset_all h expanduser true g = initial_gui h expanduser
  /\ _reset_all h expanduser false g = g.
Proof. split; reflexivity. Qed.

(** X20. After Reset All the command is the executable found, [--model]
    and [opus], and nothing else, whatever was configured before. *)
Theorem reset_command (h : Host) (expanduser : string -> string) (g : Gui) :
  path_exists h EmptyString = false ->
  _build_command (vars (_reset_all h expanduser true g))
  = [_find_claude_path h expanduser; "--model"; "opus"].
Proof.
  intros Hex.
  destruct (find_claude_path_cases h expanduser Hex) as [Hne _].
  unfold _reset_all, _update_command_preview. cbn [negb vars].
  unfold _build_command. cbv zeta. fields2.
  unfold or_else.
  destruct (_find_claude_path h expanduser); [congruence | reflexivity].
Qed.

Lemma reset_command_witness :
  _build_command
    (vars (_reset_all headless_host (fun p => p) true
             (mkGui scenario_B_config [] [] EmptyString)))
  = [_find_claude_path headless_host (fun p => p); "--model"; "opus"].
Proof.
  apply (reset_command headless_host (fun p => p)
           (mkGui scenario_B_config [] [] EmptyString)).
  reflexivity.
Defined.

(** ** The default working directory *)

Lemma safe_working_dir_cases (h : Host) :
  let r := _get_safe_working_dir h in
  r = home h
  \/ (r = getcwd h
      /\ if platform h =? "win32"
         then is_substring "system32" (lower r) = false
              /\ is_substring "syswow64" (lower r) = false
              /\ r <> drive_root h
         else r <> "/").
Proof.
  unfold _get_safe_working_dir. cbv zeta.
  destruct (platform h =? "win32").
  - destruct (is_substring "system32" (lower (getcwd h))) eqn:E1;
      [now left |].
    destruct (is_substring "syswow64" (lower (getcwd h))) eqn:E2;
      [now left |].
    destruct (getcwd h =? drive_root h) eqn:E3; cbn [orb]; [now left |].
    right. apply String.eqb_neq in E3. auto.
  - destruct (getcwd h =? "/") eqn:E; [now left |].
    right. apply String.eqb_neq in E. auto.
Qed.

(** X21. With the working-directory field left blank, no process is ever
    started in a system directory: the directory of a process the launch
    starts is the home directory, or else the current directory, which
    then is not the root [/] (on Windows: is not a drive root and has
    neither [system32] nor [syswow64] in its name, in any letter
    case). *)
Theorem blank_working_dir_is_safe (h : Host) (c : Config) (w : World)
  (ps : list Proc) (p : Proc) (d : string) :
  strip (working_dir_var c) = EmptyString ->
  procs (snd (_launch_claude h c w)) = procs w ++ ps ->
  In p ps -> p_cwd p = Some d ->
  d = home h
  \/ (d = getcwd h
      /\ if platform h =? "win32"
         then is_substring "system32" (lower d) = false
              /\ is_substring "syswow64" (lower d) = false
              /\ d <> drive_root h
         else d <> "/").
Proof.
  intros Hblank Hps Hin Hcwd.
  destruct (launch_outcomes h c w)
    as (w' & ds & ps' & x & Hrun & _ & Hp & _ & _ & Hcases).
  rewrite Hrun in Hps. cbn [snd] in Hps. rewrite Hp in Hps.
  apply app_inv_head in Hps. subst ps'.
  assert (Hwd : working_dir_of h c = _get_safe_working_dir h).
  { unfold working_dir_of. now rewrite Hblank. }
  assert (Hd : d = _get_safe_working_dir h).
  { destruct Hcases as [-> | [-> | [-> | (s & a & _ & ->)]]].
    - destruct Hin.
    - destruct Hin as [<- | []]. cbn in Hcwd. congruence.
    - destruct Hin as [<- | []]. cbn in Hcwd. congruence.
    - destruct Hin as [<- | []]. cbn in Hcwd. discriminate. }
  subst d. apply safe_working_dir_cases.
Qed.

Lemma blank_working_dir_is_safe_witness :
  "/home/user" = home headless_host
  \/ ("/home/user" = getcwd headless_host
      /\ if platform headless_host =? "win32"
         then is_substring "system32" (lower "/home/user") = false
              /\ is_substring "syswow64" (lower "/home/user") = false
              /\ "/home/user" <> drive_root headless_host
         else "/home/user" <> "/").
Proof.
  apply (blank_working_dir_is_safe headless_host
           (base_config "claude" "opus" "hello") empty_world
           [direct_spawn ["claude"; "--model"; "opus"; "hello"] "/home/user"]
           (direct_spawn ["claude"; "--model"; "opus"; "hello"] "/home/user")
           "/home/user").
  - reflexivity.
  - reflexivity.
  - now left.
  - reflexivity.
Defined.
